(** * Bookings, availability and reviews of the listings application

    A shallow embedding of [listings/models.py] and
    [listings/serializers.py]: the three tables are finite maps from
    primary key to row, a model or serializer method is a function of
    the store it reads, and a method that raises returns the exception
    in a small error monad. *)

From stdpp Require Import gmap list fin_maps strings.
From Stdlib Require Import QArith Qabs.

Local Open Scope Z_scope.

(** ** Values *)

(** Calendar dates are day numbers, so that comparison of dates is [<]
    on [Z] and [(end_date - start_date).days] is subtraction.  Amounts
    of money are the [DecimalField(decimal_places=2)] values counted in
    hundredths.  Primary keys (UUIDs) are integers. *)

(** [Booking.STATUS_CHOICES] *)
Inductive Status := pending | confirmed | canceled.

#[global] Instance Status_eq_dec : EqDecision Status.
Proof. solve_decision. Defined.

(** ** Rows of the three tables; the primary key is the key of the map. *)

Module ListingRow.
Record t := mk { pricepernight : Z }.
End ListingRow.

Module BookingRow.
Record t := mk {
  property : Z;        (* foreign key into [properties] *)
  user : Z;
  start_date : Z;
  end_date : Z;
  total_price : Z;
  status : Status;
  created_at : Z
}.
End BookingRow.

Module ReviewRow.
Record t := mk {
  property : Z;
  user : Z;
  rating : Z;
  comment : string;
  created_at : Z
}.
End ReviewRow.

Record Store := mkStore {
  properties : gmap Z ListingRow.t;
  bookings : gmap Z BookingRow.t;
  reviews : gmap Z ReviewRow.t
}.

(** [timezone.now().date()] for a clock counting seconds. *)
Definition date_of (now : Z) : Z := now `div` 86400.

(** [QuerySet.exists()] *)
Definition exists_ {A} (q : gmap Z A) : bool := bool_decide (q ≠ ∅).

(** ** Binary floating point

    Django returns the [AVG] of an integer column as a Python float,
    and the database divides the sum by the count in binary floating
    point.  A float is given here by the rational number it holds; the
    division is IEEE 754 binary64: the exact quotient rounded to 53
    significant bits, a tie going to the even significand.  Overflow
    and subnormal results are out of reach of a quotient of a sum of
    ratings by their number. *)

Module Float64.

(** [n / d] rounded to the nearest integer, a tie to the even one. *)
Definition round_half_even (n d : Z) : Z :=
  let q := n `div` d in
  let r := n `mod` d in
  if bool_decide (2 * r < d) then q
  else if bool_decide (d < 2 * r) then q + 1
  else if Z.even q then q else q + 1.

(** The exponent of the last bit of the 53-bit significand of [a / b],
    for positive [a] and [b]: the [e] with
    [2^52 <= (a / b) / 2^e < 2^53]. *)
Definition exponent (a b : Z) : Z :=
  let e := Z.log2 a - Z.log2 b - 52 in
  if bool_decide (a * 2 ^ Z.max 0 (- e) < 2 ^ 52 * (b * 2 ^ Z.max 0 e)) then e - 1 else e.

(** [m * 2^e] *)
Definition scale (m e : Z) : Q :=
  if bool_decide (0 ≤ e) then inject_Z (m * 2 ^ e) else Qmake m (Z.to_pos (2 ^ (- e))).

(** The float nearest to [a / b], for positive [a] and [b]. *)
Definition div_pos (a b : Z) : Q :=
  let e := exponent a b in
  scale (round_half_even (a * 2 ^ Z.max 0 (- e)) (b * 2 ^ Z.max 0 e)) e.

(** The quotient of two integers that a float holds exactly (below
    [2^53] in absolute value), [b] positive. *)
Definition div (a b : Z) : Q :=
  if bool_decide (a = 0) then 0%Q
  else if bool_decide (a < 0) then Qopp (div_pos (- a) b) else div_pos a b.
End Float64.

Module Listing.
Import BookingRow.

(** The rows selected by
    [self.bookings.filter(Q(start_date__lte=end_date) & Q(end_date__gte=start_date),
                          status__in=['pending', 'confirmed'])]. *)
Definition conflicting (self : Z) (start_date' end_date' : Z) (b : BookingRow.t) : bool :=
  bool_decide (property b = self)
  && ((start_date b <=? end_date') && (end_date b >=? start_date'))
  && bool_decide (status b ∈ [pending; confirmed]).

Definition conflicting_bookings (self : Z) (start_date' end_date' : Z) (st : Store)
  : gmap Z BookingRow.t :=
  filter (λ kb, conflicting self start_date' end_date' kb.2 = true) (bookings st).

Definition is_available (self : Z) (start_date' end_date' : Z) (st : Store) : bool :=
  negb (exists_ (conflicting_bookings self start_date' end_date' st)).

(** [self.reviews.all()] *)
Definition reviews_all (self : Z) (st : Store) : gmap Z ReviewRow.t :=
  filter (λ kr, ReviewRow.property kr.2 = self) (reviews st).

(** The [rating] column of the selected rows. *)
Definition ratings (q : gmap Z ReviewRow.t) : list Z :=
  (λ kr, ReviewRow.rating kr.2) <$> map_to_list q.

(** [aggregate(models.Avg('rating'))['rating__avg']]: the sum of the
    column divided by the number of rows in binary floating point, as
    Python receives it; NULL (no rows) is [None]. *)
Definition Avg (values : list Z) : option Q :=
  match values with
  | [] => None
  | _ => Some (Float64.div (foldr Z.add 0 values) (Z.of_nat (length values)))
  end.

Definition get_average_rating (self : Z) (st : Store) : option Q :=
  let reviews := reviews_all self st in
  if exists_ reviews then Avg (ratings reviews) else None.

Definition get_total_reviews (self : Z) (st : Store) : nat :=
  size (reviews_all self st).
End Listing.


(** ** Exceptions and the store monad *)

(** The kinds of validation failure, named as in the specification;
    the message the code attaches is given with each. *)
Inductive Kind :=
| InvalidRange          (* 'End date must be after start date' *)
| PastDate              (* 'Start date cannot be in the past' *)
| PropertyUnavailable   (* '... is not available for the selected dates' *)
| RatingOutOfRange      (* 'Rating must be between 1 and 5' *)
| BlankComment          (* a blank comment, [blank=False] *)
| NoEligibleStay        (* 'You can only review properties you have stayed at' *)
| DuplicateReview       (* 'You have already reviewed this property', or
                           'The fields property, user must make a unique set.' *)
| Required              (* 'This field is required.' *)
| FieldInvalid          (* a declared column validator rejected the row *)
| InvalidTransition.    (* a cancellation that [can_cancel] refuses *)

Inductive Exception :=
| ValidationError (errors : list Kind)
| AttributeError
| AssertionError
| TypeError
| RelatedObjectDoesNotExist
| IntegrityError
| Http404.

Inductive result (A : Type) :=
| Ok (a : A)
| Raise (e : Exception).
Arguments Ok {A} a.
Arguments Raise {A} e.

(** A request handler reads and writes the store and may raise; what it
    wrote before raising stays written (there is no transaction around
    a request). *)
Definition M (A : Type) : Type := Store → Store * result A.

Definition ret {A} (a : A) : M A := λ st, (st, Ok a).
Definition raise {A} (e : Exception) : M A := λ st, (st, Raise e).
Definition bind {A B} (m : M A) (k : A → M B) : M B :=
  λ st, match m st with
        | (st', Ok a) => k a st'
        | (st', Raise e) => (st', Raise e)
        end.
Definition get : M Store := λ st, (st, Ok st).
Definition put (st' : Store) : M unit := λ _, (st', Ok tt).

Notation "'let*' x := m 'in' k" := (bind m (λ x, k))
  (at level 10, x pattern, m at level 100, k at level 200).

(** ** Framework parameter *)

(** [Model.clean_fields] on a booking applies the validators declared on
    its columns: [MinValueValidator(0.01)] on [total_price], whose limit
    is a binary float compared with a decimal, and the digit limits of
    the [DecimalField].  That is framework code; its verdict on a row is
    a parameter of the model, and every statement below holds for any
    such verdict. *)
Class FieldValidation := booking_clean_fields : BookingRow.t → bool.

(** ** models.py: Booking *)

Module Booking.
Import BookingRow.

(** [self.property]: the related row, fetched through the foreign key. *)
Definition property_obj (self : t) : M ListingRow.t :=
  let* st := get in
  match properties st !! property self with
  | Some l => ret l
  | None => raise RelatedObjectDoesNotExist
  end.

(** [self.booking_id]: the model declares its key as [id] and has no
    attribute of this name, so reading it raises. *)
Definition booking_id (self : t) : M Z := raise AttributeError.

Definition clean (self : t) (adding : bool) (now : Z) : M unit :=
  if bool_decide (end_date self ≤ start_date self) then
    raise (ValidationError [InvalidRange])
  else if bool_decide (start_date self < date_of now) then
    raise (ValidationError [PastDate])
  else
    let* _ := property_obj self in
    let* st := get in
    if negb (Listing.is_available (property self) (start_date self) (end_date self) st) then
      if adding then raise (ValidationError [PropertyUnavailable])
      else
        let* bid := booking_id self in
        if negb (exists_ (filter (λ kb : Z * t,
                    kb.1 = bid ∧ start_date kb.2 = start_date self
                    ∧ end_date kb.2 = end_date self) (bookings st)))
        then raise (ValidationError [PropertyUnavailable])
        else ret tt
    else ret tt.

(** [Model.full_clean]: the errors of [clean_fields] and of [clean]
    are collected into one [ValidationError]; any other exception
    passes through. *)
Definition full_clean {fv : FieldValidation} (self : t) (adding : bool) (now : Z) : M unit :=
  λ st,
    let field_errors := if booking_clean_fields self then [] else [FieldInvalid] in
    match clean self adding now st with
    | (st', Ok _) =>
        match field_errors with
        | [] => (st', Ok tt)
        | _ => (st', Raise (ValidationError field_errors))
        end
    | (st', Raise (ValidationError es)) => (st', Raise (ValidationError (field_errors ++ es)))
    | (st', Raise e) => (st', Raise e)
    end.

(** [Meta.constraints]: [end_date_after_start_date] and
    [total_price_positive], which the write has to satisfy. *)
Definition check_constraints (self : t) : bool :=
  bool_decide (end_date self > start_date self) && bool_decide (total_price self > 0).

(** [super().save()]: one INSERT (the key must be new; [created_at] is
    [auto_now_add]) or one UPDATE of the row with this key. *)
Definition write (pk : Z) (self : t) (adding : bool) (now : Z) : M t :=
  let* st := get in
  let self := if adding
              then mk (property self) (user self) (start_date self) (end_date self)
                      (total_price self) (status self) now
              else self in
  if negb (check_constraints self) then raise IntegrityError
  else if adding && bool_decide (is_Some (bookings st !! pk)) then raise IntegrityError
  else
    let* _ := put (mkStore (properties st) (<[pk := self]> (bookings st)) (reviews st)) in
    ret self.

Definition save {fv : FieldValidation} (pk : Z) (self : t) (adding : bool) (now : Z) : M t :=
  let* _ := full_clean self adding now in
  write pk self adding now.

Definition get_number_of_nights (self : t) : Z := end_date self - start_date self.

Definition calculate_total_price (self : t) : M Z :=
  let nights := end_date self - start_date self in
  let* p := property_obj self in
  ret (nights * ListingRow.pricepernight p).

Definition can_cancel (self : t) (now : Z) : bool :=
  bool_decide (status self ∈ [pending; confirmed])
  && bool_decide (start_date self > date_of now).
End Booking.

(** ** serializers.py: BookingSerializer *)

(** The dictionary [data] / [validated_data]: a key that is absent is
    [None]; a foreign key stands for the row it names. *)
Module BookingData.
Record t := mk {
  property : option Z;
  user : option Z;
  start_date : option Z;
  end_date : option Z;
  status : option Status
}.
End BookingData.

Module BookingSerializer.

(** The fields declared on the class, and [Meta.fields]. *)
Definition declared_fields : list string :=
  ["id"; "created_at"; "property_name"; "property_location"; "user_email";
   "number_of_nights"].

Definition Meta_fields : list string :=
  ["property"; "property_name"; "property_location"; "user"; "user_email";
   "start_date"; "end_date"; "number_of_nights"; "total_price"; "status"; "created_at"].

(** [ModelSerializer.get_field_names], which the first use of
    [serializer.fields] calls: it asserts that every field declared on
    the class is listed in [Meta.fields]. *)
Definition get_field_names : result (list string) :=
  if forallb (λ field_name, bool_decide (field_name ∈ Meta_fields)) declared_fields
  then Ok Meta_fields
  else Raise AssertionError.

Definition validate (data : BookingData.t) (now : Z) : M BookingData.t :=
  let start_date := BookingData.start_date data in
  let end_date := BookingData.end_date data in
  let property_obj := BookingData.property data in
  match start_date, end_date with
  | Some start_date, Some end_date =>
      if bool_decide (end_date ≤ start_date) then
        raise (ValidationError [InvalidRange])
      else if bool_decide (start_date < date_of now) then
        raise (ValidationError [PastDate])
      else
        let* st := get in
        match property_obj with
        | Some p =>
            if negb (Listing.is_available p start_date end_date st)
            then raise (ValidationError [PropertyUnavailable])
            else ret data
        | None => ret data
        end
  | _, _ => raise TypeError   (* a comparison with [None] *)
  end.

(** The instance built from the keys of [validated_data], followed by
    [booking.total_price = booking.calculate_total_price()]: the
    subtraction of the dates comes first, then [self.property].  The
    price before the assignment and the creation time before the first
    save are unset; 0 stands for them. *)
Definition build (validated_data : BookingData.t) (request_user : Z) : M BookingRow.t :=
  let user := default request_user (BookingData.user validated_data) in
  match BookingData.start_date validated_data, BookingData.end_date validated_data with
  | Some s, Some e =>
      match BookingData.property validated_data with
      | Some p =>
          let booking :=
            BookingRow.mk p user s e 0 (default pending (BookingData.status validated_data)) 0 in
          let* price := Booking.calculate_total_price booking in
          ret (BookingRow.mk p user s e price (BookingRow.status booking) 0)
      | None => raise RelatedObjectDoesNotExist
      end
  | _, _ => raise TypeError
  end.

Definition create {fv : FieldValidation}
    (validated_data : BookingData.t) (request_user : Z) (new_pk : Z) (now : Z)
  : M BookingRow.t :=
  let* booking := build validated_data request_user in
  Booking.save new_pk booking true now.

(** [for attr, value in validated_data.items(): setattr(instance, attr, value)]
    once [property] and [user] are popped. *)
Definition setattrs (instance : BookingRow.t) (validated_data : BookingData.t) : BookingRow.t :=
  BookingRow.mk
    (default (BookingRow.property instance) (BookingData.property validated_data))
    (default (BookingRow.user instance) (BookingData.user validated_data))
    (default (BookingRow.start_date instance) (BookingData.start_date validated_data))
    (default (BookingRow.end_date instance) (BookingData.end_date validated_data))
    (BookingRow.total_price instance)
    (default (BookingRow.status instance) (BookingData.status validated_data))
    (BookingRow.created_at instance).

Definition pop_property (d : BookingData.t) : BookingData.t :=
  BookingData.mk None (BookingData.user d) (BookingData.start_date d)
                 (BookingData.end_date d) (BookingData.status d).

Definition pop_user (d : BookingData.t) : BookingData.t :=
  BookingData.mk (BookingData.property d) None (BookingData.start_date d)
                 (BookingData.end_date d) (BookingData.status d).

Definition update {fv : FieldValidation}
    (pk : Z) (instance : BookingRow.t) (validated_data : BookingData.t) (now : Z)
  : M BookingRow.t :=
  let validated_data := pop_user (pop_property validated_data) in
  let instance := setattrs instance validated_data in
  let* instance :=
    if bool_decide (is_Some (BookingData.start_date validated_data)
                    ∨ is_Some (BookingData.end_date validated_data))
    then
      let* price := Booking.calculate_total_price instance in
      ret (BookingRow.mk (BookingRow.property instance) (BookingRow.user instance)
             (BookingRow.start_date instance) (BookingRow.end_date instance)
             price (BookingRow.status instance) (BookingRow.created_at instance))
    else ret instance in
  Booking.save pk instance false now.
End BookingSerializer.

(** ** views.py: the booking requests *)

Module BookingViewSet.

(** [get_object()] *)
Definition get_object (pk : Z) : M BookingRow.t :=
  let* st := get in
  match bookings st !! pk with
  | Some b => ret b
  | None => raise Http404
  end.

(** [serializer.save(user=self.request.user)], the first statement of
    [perform_create]: the requester is put into [validated_data] before
    [BookingSerializer.create] runs. *)
Definition with_user (validated_data : BookingData.t) (request_user : Z) : BookingData.t :=
  BookingData.mk (BookingData.property validated_data) (Some request_user)
    (BookingData.start_date validated_data) (BookingData.end_date validated_data)
    (BookingData.status validated_data).

Definition serializer_save {fv : FieldValidation}
    (validated_data : BookingData.t) (request_user : Z) (new_pk : Z) (now : Z)
  : M BookingRow.t :=
  BookingSerializer.create (with_user validated_data request_user) request_user new_pk now.

(** [send_booking_confirmation_email.delay(...)]: the task goes to the
    broker, which is outside the program; [queued] is what the call
    did, [Ok tt] when the task was handed over and the exception
    otherwise.  The store is not touched. *)
Definition delay (queued : result unit) : M unit := λ st, (st, queued).

(** [perform_create]: the save, then the confirmation e-mail is queued;
    nothing catches an exception of the second statement and nothing
    takes the save back. *)
Definition perform_create {fv : FieldValidation}
    (validated_data : BookingData.t) (request_user : Z) (new_pk : Z) (now : Z)
    (queued : result unit) : M unit :=
  let* booking := serializer_save validated_data request_user new_pk now in
  delay queued.

(** [serializer.is_valid(raise_exception=True)]: the fields of the
    serializer are built first, then [validate] runs. *)
Definition is_valid (data : BookingData.t) (now : Z) : M BookingData.t :=
  match BookingSerializer.get_field_names with
  | Ok _ => BookingSerializer.validate data now
  | Raise e => raise e
  end.

(** POST, [CreateModelMixin.create]: [is_valid(raise_exception=True)],
    then [perform_create]. *)
Definition create {fv : FieldValidation}
    (data : BookingData.t) (request_user : Z) (new_pk : Z) (now : Z)
    (queued : result unit) : M unit :=
  let* validated_data := is_valid data now in
  perform_create validated_data request_user new_pk now queued.

(** PUT, [UpdateModelMixin.update]: [get_object()],
    [is_valid(raise_exception=True)], then [serializer.save()], which
    is [BookingSerializer.update] on the instance. *)
Definition update {fv : FieldValidation}
    (pk : Z) (data : BookingData.t) (now : Z) : M BookingRow.t :=
  let* instance := get_object pk in
  let* validated_data := is_valid data now in
  BookingSerializer.update pk instance validated_data now.
End BookingViewSet.

(** The operations of the specification on bookings, as the functions
    of the repository carry them out on a payload that has reached
    them: [create_booking] is [BookingSerializer.validate] followed by
    [serializer.save(user=request.user)], and [update_booking] is
    [get_object], [BookingSerializer.validate] and
    [BookingSerializer.update].  What a request to the view set does
    before and after them is in [BookingViewSet.create] and
    [BookingViewSet.update]. *)
Definition create_booking {fv : FieldValidation}
    (data : BookingData.t) (request_user : Z) (new_pk : Z) (now : Z) : M BookingRow.t :=
  let* validated_data := BookingSerializer.validate data now in
  BookingViewSet.serializer_save validated_data request_user new_pk now.

Definition update_booking {fv : FieldValidation}
    (pk : Z) (data : BookingData.t) (now : Z) : M BookingRow.t :=
  let* instance := BookingViewSet.get_object pk in
  let* validated_data := BookingSerializer.validate data now in
  BookingSerializer.update pk instance validated_data now.

(** Modelled from the spec: [cancel_booking], of which the repository has
    only the guard [Booking.can_cancel].  "Allowed only if current status
    ∈ {pending, confirmed} and range.start > today.  Fails with
    InvalidTransition otherwise"; the status of the row becomes
    [canceled]. *)
Definition cancel_booking (pk : Z) (now : Z) : M BookingRow.t :=
  let* b := BookingViewSet.get_object pk in
  if Booking.can_cancel b now then
    let b' := BookingRow.mk (BookingRow.property b) (BookingRow.user b)
                (BookingRow.start_date b) (BookingRow.end_date b)
                (BookingRow.total_price b) canceled (BookingRow.created_at b) in
    let* st := get in
    let* _ := put (mkStore (properties st) (<[pk := b']> (bookings st)) (reviews st)) in
    ret b'
  else raise (ValidationError [InvalidTransition]).

(** ** models.py: Review *)

(** [Booking.objects.filter(user=..., property=..., status='confirmed',
    end_date__lt=timezone.now().date())]; a [property] of [None] matches
    no row. *)
Definition completed_bookings (user : Z) (property : option Z) (now : Z) (st : Store)
  : gmap Z BookingRow.t :=
  filter (λ kb : Z * BookingRow.t,
            BookingRow.user kb.2 = user
            ∧ Some (BookingRow.property kb.2) = property
            ∧ BookingRow.status kb.2 = confirmed
            ∧ BookingRow.end_date kb.2 < date_of now) (bookings st).

(** [Review.objects.filter(user=..., property=...)] *)
Definition reviews_of (user : Z) (property : option Z) (st : Store) : gmap Z ReviewRow.t :=
  filter (λ kr : Z * ReviewRow.t,
            ReviewRow.user kr.2 = user ∧ Some (ReviewRow.property kr.2) = property)
         (reviews st).

Module Review.
Import ReviewRow.

Definition clean (self : t) (now : Z) : M unit :=
  let* st := get in
  let completed_bookings := completed_bookings (user self) (Some (property self)) now st in
  if negb (exists_ completed_bookings) then raise (ValidationError [NoEligibleStay])
  else ret tt.

(** The validators of the columns: [MinValueValidator(1)] and
    [MaxValueValidator(5)] on [rating], [blank=False] on [comment]. *)
Definition clean_fields (self : t) : list Kind :=
  (if bool_decide (1 ≤ rating self ≤ 5) then [] else [RatingOutOfRange])
  ++ (if bool_decide (comment self = "") then [BlankComment] else []).

(** [unique_user_property_review], checked against the other rows. *)
Definition validate_unique (pk : Z) (self : t) (st : Store) : list Kind :=
  if exists_ (delete pk (reviews_of (user self) (Some (property self)) st))
  then [DuplicateReview] else [].

(** [Model.full_clean]: the errors are collected; a uniqueness check
    over a field that already has an error ([clean] reports under
    ['user']) is left out. *)
Definition full_clean (pk : Z) (self : t) (now : Z) : M unit :=
  λ st,
    match clean self now st with
    | (st', Ok _) =>
        match clean_fields self ++ validate_unique pk self st' with
        | [] => (st', Ok tt)
        | es => (st', Raise (ValidationError es))
        end
    | (st', Raise (ValidationError es)) =>
        (st', Raise (ValidationError (clean_fields self ++ es)))
    | (st', Raise e) => (st', Raise e)
    end.

(** [super().save()] *)
Definition write (pk : Z) (self : t) (adding : bool) (now : Z) : M t :=
  let* st := get in
  let self := if adding
              then mk (property self) (user self) (rating self) (comment self) now
              else self in
  if negb (bool_decide (1 ≤ rating self ≤ 5)) then raise IntegrityError
  else if exists_ (delete pk (reviews_of (user self) (Some (property self)) st))
  then raise IntegrityError
  else if adding && bool_decide (is_Some (reviews st !! pk)) then raise IntegrityError
  else
    let* _ := put (mkStore (properties st) (bookings st) (<[pk := self]> (reviews st))) in
    ret self.

Definition save (pk : Z) (self : t) (adding : bool) (now : Z) : M t :=
  let* _ := full_clean pk self now in
  write pk self adding now.
End Review.

(** ** serializers.py: ReviewSerializer *)

Module ReviewData.
Record t := mk {
  property : option Z;
  user : option Z;
  rating : Z;
  comment : string
}.
End ReviewData.

Module ReviewSerializer.

Definition validate_rating (value : Z) : result Z :=
  if bool_decide (value < 1 ∨ value > 5)
  then Raise (ValidationError [RatingOutOfRange])
  else Ok value.

(** [self.instance] is [None] on creation and the review on update. *)
Definition validate (data : ReviewData.t) (request_user : Z)
    (instance : option (Z * ReviewRow.t)) (now : Z) : M ReviewData.t :=
  let user := request_user in
  let property_obj := ReviewData.property data in
  let* st := get in
  let completed_bookings := completed_bookings user property_obj now st in
  if negb (exists_ completed_bookings) then raise (ValidationError [NoEligibleStay])
  else if exists_ (reviews_of user property_obj st) && negb (bool_decide (is_Some instance))
  then raise (ValidationError [DuplicateReview])
  else ret data.

(** The field checks that precede [validate]: [validate_rating] (with
    the same bounds as [min_value] and [max_value]) and
    [allow_blank: False]; their errors are reported together. *)
Definition field_errors (data : ReviewData.t) : list Kind :=
  (match validate_rating (ReviewData.rating data) with
   | Ok _ => []
   | Raise _ => [RatingOutOfRange]
   end)
  ++ (if bool_decide (ReviewData.comment data = "") then [BlankComment] else []).

(** [property] and [user] are foreign keys without a default, so the
    serializer field of each is required; a payload that leaves one out
    is refused with the other field errors. *)
Definition required_errors (data : ReviewData.t) : list Kind :=
  (match ReviewData.property data with Some _ => [] | None => [Required] end)
  ++ (match ReviewData.user data with Some _ => [] | None => [Required] end).

(** The validator that a model serializer derives from the constraint
    [unique_user_property_review] of [Review.Meta]: it looks for a
    review with the property and the user of the payload, other than
    the instance that is being updated. *)
Definition unique_together (data : ReviewData.t) (instance : option (Z * ReviewRow.t))
    (st : Store) : bool :=
  match ReviewData.user data with
  | Some user =>
      let queryset := reviews_of user (ReviewData.property data) st in
      exists_ (match instance with
               | Some (pk, _) => delete pk queryset
               | None => queryset
               end)
  | None => false
  end.

(** [Serializer.run_validation], which [is_valid] calls: the fields
    first, then the validators of the serializer, then [validate]. *)
Definition run_validation (data : ReviewData.t) (request_user : Z)
    (instance : option (Z * ReviewRow.t)) (now : Z) : M ReviewData.t :=
  match required_errors data ++ field_errors data with
  | [] =>
      let* st := get in
      if unique_together data instance st then raise (ValidationError [DuplicateReview])
      else validate data request_user instance now
  | es => raise (ValidationError es)
  end.

(** [Review.objects.create] on the keys of [validated_data]. *)
Definition create (validated_data : ReviewData.t) (request_user : Z) (new_pk : Z) (now : Z)
  : M ReviewRow.t :=
  let user := default request_user (ReviewData.user validated_data) in
  match ReviewData.property validated_data with
  | Some p =>
      Review.save new_pk
        (ReviewRow.mk p user (ReviewData.rating validated_data)
           (ReviewData.comment validated_data) 0) true now
  | None => raise RelatedObjectDoesNotExist
  end.

Definition update (pk : Z) (instance : ReviewRow.t) (validated_data : ReviewData.t) (now : Z)
  : M ReviewRow.t :=
  let instance :=
    ReviewRow.mk (ReviewRow.property instance) (ReviewRow.user instance)
      (ReviewData.rating validated_data) (ReviewData.comment validated_data)
      (ReviewRow.created_at instance) in
  Review.save pk instance false now.
End ReviewSerializer.

(** [submit_review(author, property, rating, comment)]: the serializer is
    validated and saved on behalf of [author]. *)
Definition submit_review (data : ReviewData.t) (author : Z) (new_pk : Z) (now : Z)
  : M ReviewRow.t :=
  let* validated_data := ReviewSerializer.run_validation data author None now in
  ReviewSerializer.create validated_data author new_pk now.

(** ** The vocabulary of the specification *)

(** The date range of the specification (section 3) and its half-open
    overlap, in the specification's words: "two ranges overlap iff
    a.start < b.end AND b.start < a.end". *)
Record DateRange := mkRange { range_start : Z; range_end : Z }.

Definition overlaps (a b : DateRange) : bool :=
  bool_decide (range_start a < range_end b) && bool_decide (range_start b < range_end a).

Definition nights (r : DateRange) : Z := range_end r - range_start r.

Definition range (b : BookingRow.t) : DateRange :=
  mkRange (BookingRow.start_date b) (BookingRow.end_date b).

(** A booking is active when its status is pending or confirmed. *)
Definition active (b : BookingRow.t) : Prop :=
  BookingRow.status b = pending ∨ BookingRow.status b = confirmed.

(** The comparison the code makes, [start_date <= R.end] and
    [end_date >= R.start]: the two ranges share a date, ends included. *)
Definition overlaps_inclusive (a b : DateRange) : bool :=
  bool_decide (range_start a ≤ range_end b) && bool_decide (range_start b ≤ range_end a).

(** No active booking of the property overlaps the range, for a given
    notion of overlap. *)
Definition free_of (ov : DateRange → DateRange → bool) (p : Z) (r : DateRange) (st : Store)
  : Prop :=
  ∀ k b, bookings st !! k = Some b → BookingRow.property b = p → active b →
         ov (range b) r = false.

(** ** Examples *)

(** A validation instance for the examples: totals from 0.02 up to ten
    digits pass. *)
Definition example_validation : FieldValidation :=
  λ b, bool_decide (2 ≤ BookingRow.total_price b < 10 ^ 10).

(** Midnight of day [d]. *)
Definition day (d : Z) : Z := d * 86400.

(** Two properties, at 100.00 and 80.00 a night, and no booking yet. *)
Definition st_empty : Store :=
  mkStore {[ 1 := ListingRow.mk 10000; 2 := ListingRow.mk 8000 ]} ∅ ∅.

(** The same two properties with a pending booking of property 1, days
    10 to 15, by user 3. *)
Definition st_booked : Store :=
  mkStore {[ 1 := ListingRow.mk 10000; 2 := ListingRow.mk 8000 ]}
          {[ 7 := BookingRow.mk 1 3 10 15 50000 pending 0 ]} ∅.


(** The author has a completed stay at the property: a booking of
    theirs with status confirmed and end date strictly before today. *)
Definition completed_stay (author p : Z) (now : Z) (st : Store) : Prop :=
  ∃ k b, bookings st !! k = Some b
         ∧ BookingRow.user b = author ∧ BookingRow.property b = p
         ∧ BookingRow.status b = confirmed
         ∧ BookingRow.end_date b < date_of now.


(** User 3 has a confirmed booking of property 1, days 10 to 15. *)
Definition st_stayed : Store :=
  mkStore {[ 1 := ListingRow.mk 10000; 2 := ListingRow.mk 8000 ]}
          {[ 7 := BookingRow.mk 1 3 10 15 50000 confirmed 0 ]} ∅.

(** Property 1 has two reviews, rated 3 and 5. *)
Definition st_reviewed : Store :=
  mkStore {[ 1 := ListingRow.mk 10000; 2 := ListingRow.mk 8000 ]}
          ∅
          {[ 100 := ReviewRow.mk 1 3 3 "fine" 0; 101 := ReviewRow.mk 1 4 5 "great" 0 ]}.



(** ** Sequences of operations *)

(** An edit of a review: the serializer is validated with the review as
    its instance, then [update] saves it. *)
Definition update_review (pk : Z) (data : ReviewData.t) (author : Z) (now : Z)
  : M ReviewRow.t :=
  let* st := get in
  match reviews st !! pk with
  | Some instance =>
      let* validated_data :=
        ReviewSerializer.run_validation data author (Some (pk, instance)) now in
      ReviewSerializer.update pk instance validated_data now
  | None => raise Http404
  end.

Inductive Operation :=
| CreateBooking (data : BookingData.t) (request_user new_pk : Z)
| UpdateBooking (pk : Z) (data : BookingData.t)
| CancelBooking (pk : Z)
| SubmitReview (data : ReviewData.t) (author new_pk : Z)
| UpdateReview (pk : Z) (data : ReviewData.t) (author : Z).

(** The store an operation leaves, whether it returned or raised. *)
Definition perform {fv : FieldValidation} (op : Operation) (now : Z) (st : Store) : Store :=
  match op with
  | CreateBooking data request_user new_pk =>
      (create_booking data request_user new_pk now st).1
  | UpdateBooking pk data => (update_booking pk data now st).1
  | CancelBooking pk => (cancel_booking pk now st).1
  | SubmitReview data author new_pk => (submit_review data author new_pk now st).1
  | UpdateReview pk data author => (update_review pk data author now st).1
  end.

(** Operations performed one after the other, each at its own time. *)
Definition run_ops {fv : FieldValidation} (ops : list (Z * Operation)) (st : Store) : Store :=
  foldl (λ st op, perform op.2 op.1 st) st ops.

(** The safety invariant: two distinct active bookings of one property
    never overlap. *)
Definition no_double_booking (st : Store) : Prop :=
  ∀ i j a b,
    bookings st !! i = Some a → bookings st !! j = Some b → i ≠ j →
    BookingRow.property a = BookingRow.property b → active a → active b →
    overlaps (range a) (range b) = false.


(** ** Requests in flight *)

(** A creation request touches the store three times: [validate] reads
    the bookings, [full_clean] reads them again, and [super().save()]
    inserts the row.  Nothing in the code holds the store between these
    steps, so the steps of several requests may alternate. *)
Record Request := mkRequest {
  req_data : BookingData.t;
  req_user : Z;
  req_pk : Z
}.

Inductive Thread :=
| Received (r : Request)                          (* before [is_valid] *)
| Validated (booking : BookingRow.t) (pk : Z)     (* before [full_clean] *)
| Cleaned (booking : BookingRow.t) (pk : Z)       (* before [super().save()] *)
| Finished (r : result BookingRow.t).

Definition step {fv : FieldValidation} (now : Z) (t : Thread) (st : Store)
  : Store * Thread :=
  match t with
  | Received r =>
      match (let* validated_data := BookingSerializer.validate (req_data r) now in
             BookingSerializer.build
               (BookingViewSet.with_user validated_data (req_user r)) (req_user r)) st with
      | (st', Ok booking) => (st', Validated booking (req_pk r))
      | (st', Raise e) => (st', Finished (Raise e))
      end
  | Validated booking pk =>
      match Booking.full_clean booking true now st with
      | (st', Ok _) => (st', Cleaned booking pk)
      | (st', Raise e) => (st', Finished (Raise e))
      end
  | Cleaned booking pk =>
      let (st', r) := Booking.write pk booking true now st in (st', Finished r)
  | Finished r => (st, Finished r)
  end.

(** The thread with index [i] takes its next step. *)
Definition step_at {fv : FieldValidation} (now : Z) (c : Store * list Thread) (i : nat)
  : Store * list Thread :=
  match c.2 !! i with
  | Some t => let (st', t') := step now t c.1 in (st', <[i := t']> c.2)
  | None => c
  end.

Definition run_schedule {fv : FieldValidation} (now : Z) (schedule : list nat)
    (c : Store * list Thread) : Store * list Thread :=
  foldl (step_at now) c schedule.

(** The schedule that lets each of [n] requests, from index [k] on, take
    its three steps before the next request starts. *)
Fixpoint serial (k n : nat) : list nat :=
  match n with
  | O => []
  | S n => [k; k; k] ++ serial (S k) n
  end.

Definition succeeded (t : Thread) : bool :=
  match t with Finished (Ok _) => true | _ => false end.

Definition refused (t : Thread) : bool :=
  match t with
  | Finished (Raise (ValidationError [PropertyUnavailable])) => true
  | _ => false
  end.

Definition finished (t : Thread) : bool :=
  match t with Finished _ => true | _ => false end.

Definition count (f : Thread → bool) (ts : list Thread) : nat :=
  length (filter (λ t, f t = true) ts).

(** The date range a request asks for. *)
Definition req_range (r : Request) : option DateRange :=
  match BookingData.start_date (req_data r), BookingData.end_date (req_data r) with
  | Some s, Some e => Some (mkRange s e)
  | _, _ => None
  end.

(** Requests for one property whose ranges all overlap one another
    (each is then a valid range), none starting in the past, asking for
    a pending or confirmed booking. *)
Definition competing (p : Z) (now : Z) (rs : list Request) : Prop :=
  (∀ r, r ∈ rs →
     BookingData.property (req_data r) = Some p
     ∧ (BookingData.status (req_data r) ≠ Some canceled)
     ∧ ∃ a, req_range r = Some a ∧ date_of now ≤ range_start a)
  ∧ (∀ r r' a a', r ∈ rs → r' ∈ rs → req_range r = Some a → req_range r' = Some a' →
       overlaps a a' = true).

(** The concurrency claim for given requests: whatever the schedule,
    once all requests have finished exactly one has succeeded and the
    others were refused with PropertyUnavailable. *)
Definition exactly_one_succeeds {fv : FieldValidation} (now : Z) (st : Store)
    (rs : list Request) : Prop :=
  ∀ schedule,
    let c := run_schedule now schedule (st, Received <$> rs) in
    count finished c.2 = length rs →
    count succeeded c.2 = 1%nat ∧ count refused c.2 = (length rs - 1)%nat.

(** Two requests for days 20 to 25 of property 1. *)
Definition two_requests : list Request :=
  [ mkRequest (BookingData.mk (Some 1) None (Some 20) (Some 25) None) 4 8;
    mkRequest (BookingData.mk (Some 1) None (Some 20) (Some 25) None) 5 9 ].


(** ** serializers.py: ListingDetailSerializer *)

Module ListingDetailSerializer.

(** [obj.bookings.filter(status='confirmed').count()] *)
Definition get_bookings_count (obj : Z) (st : Store) : nat :=
  size (filter (λ kb : Z * BookingRow.t,
                  BookingRow.property kb.2 = obj ∧ BookingRow.status kb.2 = confirmed)
               (bookings st)).
End ListingDetailSerializer.

(** ** Further invariants of the store *)

(** One range ends before the other starts. *)
Definition apart (a b : DateRange) : Prop :=
  range_end a < range_start b ∨ range_end b < range_start a.

(** Two distinct active bookings of one property have no date in
    common, end dates included. *)
Definition no_shared_date (st : Store) : Prop :=
  ∀ i j a b,
    bookings st !! i = Some a → bookings st !! j = Some b → i ≠ j →
    BookingRow.property a = BookingRow.property b → active a → active b →
    apart (range a) (range b).

(** Every booking satisfies the constraints declared in [Meta]. *)
Definition constraints_hold (st : Store) : Prop :=
  ∀ k b, bookings st !! k = Some b →
         BookingRow.start_date b < BookingRow.end_date b
         ∧ 0 < BookingRow.total_price b.


(** Every stored rating is between 1 and 5. *)
Definition ratings_in_range (st : Store) : Prop :=
  ∀ k r, reviews st !! k = Some r → 1 ≤ ReviewRow.rating r ≤ 5.


(** ** management/commands/seed.py *)

(** [try: ... except Exception: ...]: every exception of the body is
    caught, and what the body wrote before raising stays written. *)
Definition try_except {A} (body handler : M A) : M A :=
  λ st, match body st with
        | (st', Ok a) => (st', Ok a)
        | (st', Raise _) => handler st'
        end.

Module Seed.

(** [Booking.objects.create]: the instance is built from the keyword
    arguments and saved. *)
Definition Booking_objects_create {fv : FieldValidation} (pk : Z) (property : Z) (user : Z)
    (start_date end_date total_price : Z) (status : Status) (now : Z) : M BookingRow.t :=
  Booking.save pk (BookingRow.mk property user start_date end_date total_price status 0)
    true now.

(** The random draws of one round of the loop of [create_bookings]: the
    guest, the property (the object in memory, with its key), the two
    [random.randint] values, the status and the key of the new row. *)
Record BookingDraw := mkBookingDraw {
  bd_guest : Z;
  bd_property : Z * ListingRow.t;
  bd_days_ahead : Z;
  bd_nights : Z;
  bd_status : Status;
  bd_pk : Z
}.

(** [random.randint(1, 90)] and [random.randint(1, 14)] *)
Definition booking_draw_in_bounds (d : BookingDraw) : Prop :=
  1 ≤ bd_days_ahead d ≤ 90 ∧ 1 ≤ bd_nights d ≤ 14.

(** One round of the loop of [create_bookings]; [bookings] is the list
    the method collects. *)
Definition create_bookings_round {fv : FieldValidation} (now : Z)
    (bookings : list (Z * BookingRow.t)) (d : BookingDraw)
  : M (list (Z * BookingRow.t)) :=
  try_except
    (let guest := bd_guest d in
     let property_obj := bd_property d in
     let days_ahead := bd_days_ahead d in
     let start_date := date_of now + days_ahead in
     let nights := bd_nights d in
     let end_date := start_date + nights in
     let total_price := ListingRow.pricepernight property_obj.2 * nights in
     let* st := get in
     if Listing.is_available property_obj.1 start_date end_date st then
       let* booking :=
         Booking_objects_create (bd_pk d) property_obj.1 guest start_date end_date
           total_price (bd_status d) now in
       ret (bookings ++ [(bd_pk d, booking)])
     else ret bookings)
    (ret bookings).

Fixpoint create_bookings_loop {fv : FieldValidation} (now : Z)
    (bookings : list (Z * BookingRow.t)) (draws : list BookingDraw)
  : M (list (Z * BookingRow.t)) :=
  match draws with
  | [] => ret bookings
  | d :: draws =>
      let* bookings := create_bookings_round now bookings d in
      create_bookings_loop now bookings draws
  end.

(** [create_bookings]: the loop from an empty list. *)
Definition create_bookings {fv : FieldValidation} (now : Z) (draws : list BookingDraw)
  : M (list (Z * BookingRow.t)) :=
  create_bookings_loop now [] draws.

(** [past_bookings] of [create_reviews]: the collected bookings with
    status confirmed that ended before today. *)
Definition past_bookings (bookings : list (Z * BookingRow.t)) (now : Z)
  : list (Z * BookingRow.t) :=
  filter (λ kb : Z * BookingRow.t,
            BookingRow.status kb.2 = confirmed ∧ BookingRow.end_date kb.2 < date_of now)
         bookings.

(** The draws of one round of the second loop of [create_reviews]: the
    guest, the property, the two [random.randint] values for the
    backdated booking, the rating with the comment chosen for it, and
    the keys of the two new rows. *)
Record ReviewDraw := mkReviewDraw {
  rd_guest : Z;
  rd_property : Z * ListingRow.t;
  rd_days_ago : Z;
  rd_nights : Z;
  rd_rating : Z;
  rd_comment : string;
  rd_booking_pk : Z;
  rd_review_pk : Z
}.

(** [random.randint(7, 60)] and [random.randint(1, 7)] *)
Definition review_draw_in_bounds (d : ReviewDraw) : Prop :=
  7 ≤ rd_days_ago d ≤ 60 ∧ 1 ≤ rd_nights d ≤ 7.

(** One round of the loop that creates "additional reviews": a backdated
    confirmed booking first, then the review. *)
Definition additional_review_round {fv : FieldValidation} (now : Z)
    (reviews : list (Z * ReviewRow.t)) (d : ReviewDraw) : M (list (Z * ReviewRow.t)) :=
  try_except
    (let guest := rd_guest d in
     let property_obj := rd_property d in
     let* st := get in
     if negb (exists_ (reviews_of guest (Some property_obj.1) st)) then
       let days_ago := rd_days_ago d in
       let end_date := date_of now - days_ago in
       let start_date := end_date - rd_nights d in
       let* booking :=
         Booking_objects_create (rd_booking_pk d) property_obj.1 guest start_date end_date
           (ListingRow.pricepernight property_obj.2 * (end_date - start_date))
           confirmed now in
       let* review :=
         Review.save (rd_review_pk d)
           (ReviewRow.mk property_obj.1 guest (rd_rating d) (rd_comment d) 0) true now in
       ret (reviews ++ [(rd_review_pk d, review)])
     else ret reviews)
    (ret reviews).
End Seed.


(** ** models.py: Payment; service.py; views.py: the payment views *)

(** [Payment.PAYMENT_STATUS] *)
Inductive PaymentStatus := CREATED | PROCESSING | COMPLETE | FAILED.

(** The value [response.json()] returns. *)
#[warnings="-register-all"]
Inductive Json :=
| JNull
| JBool (b : bool)
| JNumber (q : Q)
| JString (s : string)
| JArray (items : list Json)
| JObject (fields : gmap string Json).

(** A payment row: the columns the views and the service write; the
    amount and the contact columns are only handed to the gateway. *)
Module PaymentRow.
Record t := mk {
  booking_ref : Z;
  status : PaymentStatus;
  response_dump : Json;
  checkout_url : option string
}.
End PaymentRow.

(** The payment views read the bookings and write the payments table. *)
Definition Payments : Type := gmap Z PaymentRow.t.

Module Python.

(** The truth value of a value in a condition. *)
Definition truthy (v : Json) : bool :=
  match v with
  | JNull => false
  | JBool b => b
  | JNumber q => negb (Qeq_bool q 0)
  | JString s => negb (bool_decide (s = ""))
  | JArray items => negb (bool_decide (items = []))
  | JObject fields => negb (bool_decide (fields = ∅))
  end.

(** [v.get(key)]: a dictionary answers with the value or [None]; no
    other value has the method. *)
Definition get (v : Json) (key : string) : result Json :=
  match v with
  | JObject fields => Ok (default JNull (fields !! key))
  | _ => Raise AttributeError
  end.

(** [v == s] for a string [s] *)
Definition eq_str (v : Json) (s : string) : bool :=
  match v with
  | JString s' => bool_decide (s' = s)
  | _ => false
  end.
End Python.

Module Payment.

(** [transaction.PENDING]: the class declares [CREATED], [PROCESSING],
    [COMPLETE] and [FAILED]; there is no attribute of this name. *)
Definition PENDING (self : PaymentRow.t) : result PaymentStatus := Raise AttributeError.

(** [Model.save()], which [Payment] does not override: the row is
    written under its key. *)
Definition save (pk : Z) (self : PaymentRow.t) (payments : Payments) : Payments :=
  <[pk := self]> payments.
End Payment.

Module ChapaAPIService.

(** [send_request]: [response] is what the gateway answered to the POST. *)
Definition send_request (pk : Z) (transaction : PaymentRow.t) (update_record : bool)
    (response : Json) (payments : Payments) : Payments * result Json :=
  let data := response in
  if Python.truthy data then
    match Python.get data "status" with
    | Raise e => (payments, Raise e)
    | Ok status =>
        if Python.eq_str status "success" && update_record then
          match Payment.PENDING transaction with
          | Raise e => (payments, Raise e)
          | Ok pending_status =>
              match Python.get data "data" with
              | Raise e => (payments, Raise e)
              | Ok inner =>
                  match Python.get inner "checkout_url" with
                  | Raise e => (payments, Raise e)
                  | Ok url =>
                      let transaction :=
                        PaymentRow.mk (PaymentRow.booking_ref transaction) pending_status
                          (PaymentRow.response_dump transaction)
                          (match url with JString s => Some s | _ => None end) in
                      (Payment.save pk transaction payments, Ok data)
                  end
              end
          end
        else (payments, Ok data)
    end
  else (payments, Ok data).

(** [verify_payment]: the body of the answer to the GET. *)
Definition verify_payment (response : Json) : Json := response.
End ChapaAPIService.

(** The status code of a [Response]. *)
Record Response := mkResponse { status_code : Z }.

Module PaymentView.

(** [post]: [valid] is the verdict of [serializer.is_valid], [new_pk] the
    key drawn for the payment and [response] the answer of the
    gateway. *)
Definition post (booking_id : Z) (valid : bool) (new_pk : Z) (response : Json)
    (st : Store) (payments : Payments) : Payments * result Response :=
  match bookings st !! booking_id with
  | None => (payments, Raise Http404)
  | Some _ =>
      if negb valid then (payments, Raise (ValidationError [FieldInvalid]))
      else if bool_decide (is_Some (payments !! new_pk)) then (payments, Raise IntegrityError)
      else
        let payment := PaymentRow.mk booking_id CREATED (JObject ∅) None in
        let payments := Payment.save new_pk payment payments in
        match ChapaAPIService.send_request new_pk payment true response payments with
        | (payments, Raise e) => (payments, Raise e)
        | (payments, Ok chapa_response) =>
            match Python.get chapa_response "status" with
            | Raise e => (payments, Raise e)
            | Ok status =>
                if negb (Python.eq_str status "success") then
                  let payment :=
                    PaymentRow.mk (PaymentRow.booking_ref payment) FAILED
                      (PaymentRow.response_dump payment) (PaymentRow.checkout_url payment) in
                  (Payment.save new_pk payment payments, Ok (mkResponse 400))
                else (payments, Ok (mkResponse 201))
            end
        end
  end.
End PaymentView.

Module VerifyPaymentView.

(** [response.data]: the value [verify_payment] returned is what
    [response.json()] gave, and none of these values has an attribute
    [data]. *)
Definition data (response : Json) : result Json := Raise AttributeError.

Definition get (payment_id : Z) (response : Json) (payments : Payments)
  : Payments * result Response :=
  match payments !! payment_id with
  | None => (payments, Raise Http404)
  | Some payment =>
      let response := ChapaAPIService.verify_payment response in
      match data response with
      | Raise e => (payments, Raise e)
      | Ok d =>
          match Python.get d "status" with
          | Raise e => (payments, Raise e)
          | Ok status =>
              let payment :=
                PaymentRow.mk (PaymentRow.booking_ref payment)
                  (if Python.eq_str status "success" then COMPLETE else FAILED)
                  response (PaymentRow.checkout_url payment) in
              (Payment.save payment_id payment payments, Ok (mkResponse 200))
          end
      end
  end.
End VerifyPaymentView.

(** The two payment requests, with what the outside answered. *)
Inductive PaymentRequest :=
| PostPayment (booking_id : Z) (valid : bool) (new_pk : Z) (response : Json)
| VerifyPayment (payment_id : Z) (response : Json).

Definition handle (st : Store) (payments : Payments) (r : PaymentRequest) : Payments :=
  match r with
  | PostPayment booking_id valid new_pk response =>
      (PaymentView.post booking_id valid new_pk response st payments).1
  | VerifyPayment payment_id response =>
      (VerifyPaymentView.get payment_id response payments).1
  end.

(** A payment as the views leave it: created or failed, without a
    checkout address, for an existing booking. *)
Definition never_completed (st : Store) (payments : Payments) : Prop :=
  ∀ k p, payments !! k = Some p →
         (PaymentRow.status p = CREATED ∨ PaymentRow.status p = FAILED)
         ∧ PaymentRow.checkout_url p = None
         ∧ is_Some (bookings st !! PaymentRow.booking_ref p).


(** ** Queries *)

Lemma exists_false {A} (q : gmap Z A) : exists_ q = false ↔ q = ∅.
Proof.
  unfold exists_. rewrite bool_decide_eq_false. split; [|by intros ->; auto].
  intros Hq. by destruct (decide (q = ∅)).
Qed.

Lemma exists_true {A} (q : gmap Z A) : exists_ q = true ↔ ∃ k x, q !! k = Some x.
Proof.
  unfold exists_. rewrite bool_decide_eq_true. split.
  - apply map_choose.
  - intros (k & x & Hk) ->. by rewrite lookup_empty in Hk.
Qed.

Lemma active_status (b : BookingRow.t) :
  bool_decide (BookingRow.status b ∈ [pending; confirmed]) = true ↔ active b.
Proof.
  rewrite bool_decide_eq_true, !elem_of_cons, elem_of_nil. unfold active. tauto.
Qed.

Lemma conflicting_true (p : Z) (r : DateRange) (b : BookingRow.t) :
  Listing.conflicting p (range_start r) (range_end r) b = true ↔
  BookingRow.property b = p ∧ active b ∧ overlaps_inclusive (range b) r = true.
Proof.
  unfold Listing.conflicting, overlaps_inclusive, range. simpl.
  rewrite !andb_true_iff, active_status, !bool_decide_eq_true, Z.leb_le, Z.geb_le.
  tauto.
Qed.

Lemma is_available_true (p : Z) (r : DateRange) (st : Store) :
  Listing.is_available p (range_start r) (range_end r) st = true ↔
  free_of overlaps_inclusive p r st.
Proof.
  unfold Listing.is_available, Listing.conflicting_bookings, free_of.
  rewrite negb_true_iff, exists_false, map_empty_filter.
  unfold map_Forall. simpl. split; intros Hm k b Hk.
  - intros Hp Ha. apply not_true_is_false. intros Ho.
    apply (Hm k b Hk), conflicting_true. auto.
  - intros (Hp & Ha & Ho)%conflicting_true.
    by rewrite (Hm k b Hk Hp Ha) in Ho.
Qed.

Lemma is_available_false (p : Z) (r : DateRange) (st : Store) :
  Listing.is_available p (range_start r) (range_end r) st = false ↔
  ∃ k b, bookings st !! k = Some b ∧ BookingRow.property b = p ∧ active b
         ∧ overlaps_inclusive (range b) r = true.
Proof.
  unfold Listing.is_available, Listing.conflicting_bookings.
  rewrite negb_false_iff, exists_true. split.
  - intros (k & b & (Hk & Hc)%map_lookup_filter_Some). simpl in Hc.
    apply conflicting_true in Hc. exists k, b. tauto.
  - intros (k & b & Hk & Hc). exists k, b. apply map_lookup_filter_Some.
    split; [done|]. simpl. apply conflicting_true. done.
Qed.

(** Ranges that overlap half-open share a date. *)
Lemma overlaps_inclusive_of_overlaps (a b : DateRange) :
  overlaps a b = true → overlaps_inclusive a b = true.
Proof.
  unfold overlaps, overlaps_inclusive.
  rewrite !andb_true_iff, !bool_decide_eq_true. lia.
Qed.

(** ** Availability *)

(** C3, as the code has it: [is_available] is true exactly when no
    pending or confirmed booking of the property shares a date with the
    range, both end dates included; so a range that starts on the day an
    active booking ends is reported unavailable. *)
Theorem is_available_inclusive (p : Z) (r : DateRange) (st : Store) :
  (Listing.is_available p (range_start r) (range_end r) st = true
   ↔ free_of overlaps_inclusive p r st)
  ∧ (∀ k b, bookings st !! k = Some b → BookingRow.property b = p → active b →
            BookingRow.start_date b < BookingRow.end_date b →
            range_start r < range_end r →
            range_start r = BookingRow.end_date b →
            Listing.is_available p (range_start r) (range_end r) st = false).
Proof.
  split; [apply is_available_true|].
  intros k b Hk Hp Ha Hb Hr Heq. apply is_available_false.
  exists k, b. repeat split; try done.
  unfold overlaps_inclusive, range. simpl.
  rewrite andb_true_iff, !bool_decide_eq_true. lia.
Qed.

Lemma is_available_inclusive_witness :
  Listing.is_available 1 15 18 st_booked = false.
Proof.
  apply (proj2 (is_available_inclusive 1 (mkRange 15 18) st_booked)
           7 (BookingRow.mk 1 3 10 15 50000 pending 0)).
  - reflexivity.
  - reflexivity.
  - left. reflexivity.
  - simpl. lia.
  - simpl. lia.
  - reflexivity.
Defined.

(** C3 as stated fails: days 15 to 18 do not overlap the pending booking
    of days 10 to 15 half-open, and the property is reported taken. *)
Lemma is_available_half_open_counterexample :
  ¬ (Listing.is_available 1 15 18 st_booked = true ↔ free_of overlaps 1 (mkRange 15 18) st_booked).
Proof.
  intros [_ Hfree]. enough (Listing.is_available 1 15 18 st_booked = true) as Ha by done.
  apply Hfree. intros k b Hk _ _. unfold st_booked in Hk. simpl in Hk.
  apply lookup_singleton_Some in Hk as [_ <-]. reflexivity.
Qed.

(** ** Saving a booking *)

Ltac run := unfold bind, get, put, ret, raise in *; simpl in *.

(** [Booking.clean] reads the store and never writes it; its verdict,
    check by check. *)
Lemma clean_run (self : BookingRow.t) (adding : bool) (now : Z) (st : Store) :
  Booking.clean self adding now st =
  (st,
   if bool_decide (BookingRow.end_date self ≤ BookingRow.start_date self)
   then Raise (ValidationError [InvalidRange])
   else if bool_decide (BookingRow.start_date self < date_of now)
   then Raise (ValidationError [PastDate])
   else match properties st !! BookingRow.property self with
        | None => Raise RelatedObjectDoesNotExist
        | Some _ =>
            if Listing.is_available (BookingRow.property self)
                 (BookingRow.start_date self) (BookingRow.end_date self) st
            then Ok tt
            else if adding then Raise (ValidationError [PropertyUnavailable])
            else Raise AttributeError
        end).
Proof.
  unfold Booking.clean, Booking.property_obj, Booking.booking_id.
  repeat case_bool_decide; run; try done.
  destruct (properties st !! BookingRow.property self); run; [|done].
  destruct Listing.is_available; simpl; [done|]. by destruct adding.
Qed.

(** What a successful [save] has checked and written. *)
Lemma save_Ok {fv : FieldValidation} (pk : Z) (self : BookingRow.t) (adding : bool)
    (now : Z) (st st' : Store) (b : BookingRow.t) :
  Booking.save pk self adding now st = (st', Ok b) →
  BookingRow.start_date self < BookingRow.end_date self
  ∧ date_of now ≤ BookingRow.start_date self
  ∧ Listing.is_available (BookingRow.property self)
      (BookingRow.start_date self) (BookingRow.end_date self) st = true
  ∧ (adding = true → bookings st !! pk = None)
  ∧ b = (if adding
         then BookingRow.mk (BookingRow.property self) (BookingRow.user self)
                (BookingRow.start_date self) (BookingRow.end_date self)
                (BookingRow.total_price self) (BookingRow.status self) now
         else self)
  ∧ st' = mkStore (properties st) (<[pk := b]> (bookings st)) (reviews st).
Proof.
  unfold Booking.save, Booking.full_clean, Booking.write, bind at 1.
  rewrite clean_run.
  repeat case_bool_decide; try (destruct booking_clean_fields; simpl; done).
  destruct (properties st !! BookingRow.property self); [|destruct booking_clean_fields; done].
  destruct Listing.is_available;
    [|destruct adding, booking_clean_fields; done].
  destruct booking_clean_fields; [|done]. run.
  destruct (negb _); [done|].
  destruct adding; simpl.
  - case_bool_decide as Hpk; [done|]. intros [= <- <-].
    repeat split; try lia; try done.
    intros _. by apply eq_None_not_Some.
  - intros [= <- <-]. repeat split; try lia; done.
Qed.

(** A [save] that raises has written nothing. *)
Lemma save_Raise {fv : FieldValidation} (pk : Z) (self : BookingRow.t) (adding : bool)
    (now : Z) (st st' : Store) (e : Exception) :
  Booking.save pk self adding now st = (st', Raise e) → st' = st.
Proof.
  unfold Booking.save, Booking.full_clean, Booking.write, bind at 1.
  rewrite clean_run.
  repeat case_bool_decide; try (destruct booking_clean_fields; simpl; congruence).
  destruct (properties st !! BookingRow.property self);
    [|destruct booking_clean_fields; simpl; congruence].
  destruct Listing.is_available;
    [|destruct adding, booking_clean_fields; simpl; congruence].
  destruct booking_clean_fields; [|simpl; congruence]. run.
  destruct (negb _); [congruence|].
  destruct (adding && _); congruence.
Qed.

(** The checks that make [save] insert a new booking. *)
Lemma save_new {fv : FieldValidation} (pk : Z) (self : BookingRow.t) (now : Z) (st : Store) :
  BookingRow.start_date self < BookingRow.end_date self →
  date_of now ≤ BookingRow.start_date self →
  is_Some (properties st !! BookingRow.property self) →
  Listing.is_available (BookingRow.property self)
    (BookingRow.start_date self) (BookingRow.end_date self) st = true →
  booking_clean_fields self = true →
  0 < BookingRow.total_price self →
  bookings st !! pk = None →
  let b := BookingRow.mk (BookingRow.property self) (BookingRow.user self)
             (BookingRow.start_date self) (BookingRow.end_date self)
             (BookingRow.total_price self) (BookingRow.status self) now in
  Booking.save pk self true now st
  = (mkStore (properties st) (<[pk := b]> (bookings st)) (reviews st), Ok b).
Proof.
  intros Hr Hd [l Hl] Ha Hf Hp Hpk b.
  unfold Booking.save, Booking.full_clean, Booking.write, bind at 1.
  rewrite clean_run, Hf, Hl, Ha.
  rewrite !bool_decide_eq_false_2 by lia. run.
  unfold Booking.check_constraints. simpl.
  rewrite !bool_decide_eq_true_2 by lia. simpl.
  rewrite Hpk. rewrite bool_decide_eq_false_2 by (by intros [? ?]). done.
Qed.

(** ** The booking requests *)

Lemma validate_run (data : BookingData.t) (now : Z) (st : Store) :
  BookingSerializer.validate data now st =
  (st,
   match BookingData.start_date data, BookingData.end_date data with
   | Some s, Some e =>
       if bool_decide (e ≤ s) then Raise (ValidationError [InvalidRange])
       else if bool_decide (s < date_of now) then Raise (ValidationError [PastDate])
       else match BookingData.property data with
            | Some p =>
                if Listing.is_available p s e st then Ok data
                else Raise (ValidationError [PropertyUnavailable])
            | None => Ok data
            end
   | _, _ => Raise TypeError
   end).
Proof.
  unfold BookingSerializer.validate.
  destruct (BookingData.start_date data) as [s|], (BookingData.end_date data) as [e|];
    try done.
  repeat case_bool_decide; run; try done.
  destruct (BookingData.property data) as [p|]; [|done].
  by destruct Listing.is_available.
Qed.

Lemma calculate_total_price_run (self : BookingRow.t) (st : Store) :
  Booking.calculate_total_price self st =
  (st, match properties st !! BookingRow.property self with
       | Some l => Ok ((BookingRow.end_date self - BookingRow.start_date self)
                       * ListingRow.pricepernight l)
       | None => Raise RelatedObjectDoesNotExist
       end).
Proof.
  unfold Booking.calculate_total_price, Booking.property_obj. run.
  by destruct (properties st !! BookingRow.property self).
Qed.

(** What a successful [create_booking] has checked and written. *)
Lemma create_booking_Ok {fv : FieldValidation} (data : BookingData.t)
    (request_user new_pk now : Z) (st st' : Store) (b : BookingRow.t) :
  create_booking data request_user new_pk now st = (st', Ok b) →
  ∃ p l s e,
    BookingData.property data = Some p ∧ properties st !! p = Some l
    ∧ BookingData.start_date data = Some s ∧ BookingData.end_date data = Some e
    ∧ s < e ∧ date_of now ≤ s
    ∧ Listing.is_available p s e st = true
    ∧ bookings st !! new_pk = None
    ∧ b = BookingRow.mk p request_user s e ((e - s) * ListingRow.pricepernight l)
            (default pending (BookingData.status data)) now
    ∧ st' = mkStore (properties st) (<[new_pk := b]> (bookings st)) (reviews st).
Proof.
  unfold create_booking, bind at 1. rewrite validate_run.
  destruct (BookingData.start_date data) as [s|] eqn:Hs; [|done].
  destruct (BookingData.end_date data) as [e|] eqn:He; [|done].
  do 2 (case_bool_decide; [done|]).
  unfold BookingViewSet.serializer_save, BookingSerializer.create,
    BookingSerializer.build.
  destruct (BookingData.property data) as [p|] eqn:Hp.
  - destruct (Listing.is_available p s e st) eqn:Ha; [|done].
    simpl. rewrite Hs, He, Hp. unfold bind at 1 2. rewrite calculate_total_price_run.
    simpl. destruct (properties st !! p) as [l|] eqn:Hl; [|done]. run.
    intros Hsave. apply save_Ok in Hsave as (_ & _ & _ & Hpk & -> & ->). simpl.
    exists p, l, s, e. repeat split; try done; try lia. by apply Hpk.
  - simpl. rewrite Hs, He, Hp. run. done.
Qed.

(** A [create_booking] that raises leaves the store as it was. *)
Lemma create_booking_Raise {fv : FieldValidation} (data : BookingData.t)
    (request_user new_pk now : Z) (st st' : Store) (x : Exception) :
  create_booking data request_user new_pk now st = (st', Raise x) → st' = st.
Proof.
  unfold create_booking, bind at 1. rewrite validate_run.
  destruct (BookingData.start_date data) as [s|] eqn:Hs; [|congruence].
  destruct (BookingData.end_date data) as [e|] eqn:He; [|congruence].
  do 2 (case_bool_decide; [congruence|]).
  unfold BookingViewSet.serializer_save, BookingSerializer.create,
    BookingSerializer.build.
  destruct (BookingData.property data) as [p|] eqn:Hp.
  - destruct (Listing.is_available p s e st) eqn:Ha; [|congruence].
    simpl. rewrite Hs, He, Hp. unfold bind at 1 2. rewrite calculate_total_price_run.
    simpl. destruct (properties st !! p) as [l|] eqn:Hl; [|congruence]. run.
    apply save_Raise.
  - simpl. rewrite Hs, He, Hp. run. congruence.
Qed.

(** What a successful [BookingSerializer.update] has checked and written,
    when both dates are among the validated data. *)
Lemma serializer_update_Ok {fv : FieldValidation} (pk : Z) (b : BookingRow.t)
    (data : BookingData.t) (now : Z) (st st' : Store) (b' : BookingRow.t) (s e : Z) :
  BookingData.start_date data = Some s → BookingData.end_date data = Some e →
  BookingSerializer.update pk b data now st = (st', Ok b') →
  ∃ l,
    properties st !! BookingRow.property b = Some l
    ∧ s < e ∧ date_of now ≤ s
    ∧ Listing.is_available (BookingRow.property b) s e st = true
    ∧ b' = BookingRow.mk (BookingRow.property b) (BookingRow.user b) s e
             ((e - s) * ListingRow.pricepernight l)
             (default (BookingRow.status b) (BookingData.status data))
             (BookingRow.created_at b)
    ∧ st' = mkStore (properties st) (<[pk := b']> (bookings st)) (reviews st).
Proof.
  intros Hs He.
  unfold BookingSerializer.update, BookingSerializer.setattrs,
    BookingSerializer.pop_user, BookingSerializer.pop_property. simpl.
  rewrite Hs, He. simpl.
  unfold bind at 1 2. rewrite calculate_total_price_run. simpl.
  destruct (properties st !! BookingRow.property b) as [l|] eqn:Hl; [|done]. run.
  intros Hsave. apply save_Ok in Hsave as (Hr & Hd & Ha & _ & -> & ->). simpl in *.
  exists l. repeat split; done.
Qed.

(** What a successful [update_booking] has checked and written. *)
Lemma update_booking_Ok {fv : FieldValidation} (pk : Z) (data : BookingData.t)
    (now : Z) (st st' : Store) (b' : BookingRow.t) :
  update_booking pk data now st = (st', Ok b') →
  ∃ b l s e,
    bookings st !! pk = Some b ∧ properties st !! BookingRow.property b = Some l
    ∧ BookingData.start_date data = Some s ∧ BookingData.end_date data = Some e
    ∧ s < e ∧ date_of now ≤ s
    ∧ Listing.is_available (BookingRow.property b) s e st = true
    ∧ b' = BookingRow.mk (BookingRow.property b) (BookingRow.user b) s e
             ((e - s) * ListingRow.pricepernight l)
             (default (BookingRow.status b) (BookingData.status data))
             (BookingRow.created_at b)
    ∧ st' = mkStore (properties st) (<[pk := b']> (bookings st)) (reviews st).
Proof.
  unfold update_booking, BookingViewSet.get_object.
  unfold bind at 1 2. simpl. destruct (bookings st !! pk) as [b|] eqn:Hb; [|done].
  simpl. unfold bind at 1. rewrite validate_run.
  destruct (BookingData.start_date data) as [s|] eqn:Hs; [|done].
  destruct (BookingData.end_date data) as [e|] eqn:He; [|done].
  do 2 (case_bool_decide; [done|]).
  assert (BookingSerializer.update pk b data now st = (st', Ok b') →
          ∃ l, properties st !! BookingRow.property b = Some l
            ∧ s < e ∧ date_of now ≤ s
            ∧ Listing.is_available (BookingRow.property b) s e st = true
            ∧ b' = BookingRow.mk (BookingRow.property b) (BookingRow.user b) s e
                     ((e - s) * ListingRow.pricepernight l)
                     (default (BookingRow.status b) (BookingData.status data))
                     (BookingRow.created_at b)
            ∧ st' = mkStore (properties st) (<[pk := b']> (bookings st)) (reviews st))
    as Hupd by (by apply serializer_update_Ok).
  destruct (BookingData.property data) as [p|].
  - destruct (Listing.is_available p s e st); [|done].
    intros (l & ?)%Hupd. exists b, l, s, e. tauto.
  - intros (l & ?)%Hupd. exists b, l, s, e. tauto.
Qed.

(** An [update_booking] that raises leaves the store as it was. *)
Lemma update_booking_Raise {fv : FieldValidation} (pk : Z) (data : BookingData.t)
    (now : Z) (st st' : Store) (x : Exception) :
  update_booking pk data now st = (st', Raise x) → st' = st.
Proof.
  unfold update_booking, BookingViewSet.get_object.
  unfold bind at 1 2. simpl. destruct (bookings st !! pk) as [b|] eqn:Hb; [|simpl; congruence].
  simpl. unfold bind at 1. rewrite validate_run.
  destruct (BookingSerializer.update pk b data now st) as [st2 r2] eqn:Hu.
  assert (∀ x', r2 = Raise x' → st2 = st) as Hupd.
  { intros x' ->. revert Hu.
    unfold BookingSerializer.update. unfold bind at 1.
    case_bool_decide.
    - unfold bind at 1. rewrite calculate_total_price_run. simpl.
      destruct (properties st !! _); [|simpl; congruence]. run. apply save_Raise.
    - run. apply save_Raise. }
  destruct (BookingData.start_date data) as [s|] eqn:Hs; [|congruence].
  destruct (BookingData.end_date data) as [e|] eqn:He; [|congruence].
  do 2 (case_bool_decide; [congruence|]).
  destruct (BookingData.property data) as [p|].
  - destruct (Listing.is_available p s e st); [|congruence].
    rewrite Hu. intros [= -> ->]. eauto.
  - rewrite Hu. intros [= -> ->]. eauto.
Qed.

(** ** Saving a review *)

Lemma review_clean_run (self : ReviewRow.t) (now : Z) (st : Store) :
  Review.clean self now st =
  (st, if exists_ (completed_bookings (ReviewRow.user self)
                     (Some (ReviewRow.property self)) now st)
       then Ok tt else Raise (ValidationError [NoEligibleStay])).
Proof. unfold Review.clean. run. by destruct exists_. Qed.

(** What a successful [Review.save] has checked and written. *)
Lemma review_save_Ok (pk : Z) (self : ReviewRow.t) (adding : bool) (now : Z)
    (st st' : Store) (r : ReviewRow.t) :
  Review.save pk self adding now st = (st', Ok r) →
  exists_ (completed_bookings (ReviewRow.user self) (Some (ReviewRow.property self)) now st)
    = true
  ∧ Review.clean_fields self = []
  ∧ delete pk (reviews_of (ReviewRow.user self) (Some (ReviewRow.property self)) st) = ∅
  ∧ (adding = true → reviews st !! pk = None)
  ∧ r = (if adding
         then ReviewRow.mk (ReviewRow.property self) (ReviewRow.user self)
                (ReviewRow.rating self) (ReviewRow.comment self) now
         else self)
  ∧ st' = mkStore (properties st) (bookings st) (<[pk := r]> (reviews st)).
Proof.
  unfold Review.save, Review.full_clean, Review.write, Review.validate_unique, bind at 1.
  rewrite review_clean_run.
  destruct (exists_ (completed_bookings _ _ _ _)); [|done].
  destruct (exists_ (delete pk _)) eqn:Hu.
  { by destruct (Review.clean_fields self). }
  rewrite app_nil_r. destruct (Review.clean_fields self) eqn:Hf; [|done].
  destruct adding; run; (destruct (negb _); [done|]); rewrite Hu;
    apply exists_false in Hu.
  - case_bool_decide as Hpk; [done|]. intros [= <- <-].
    repeat split; try done. intros _. by apply eq_None_not_Some.
  - intros [= <- <-]. repeat split; done.
Qed.

(** A [Review.save] that raises has written nothing. *)
Lemma review_save_Raise (pk : Z) (self : ReviewRow.t) (adding : bool) (now : Z)
    (st st' : Store) (x : Exception) :
  Review.save pk self adding now st = (st', Raise x) → st' = st.
Proof.
  unfold Review.save, Review.full_clean, Review.write, bind at 1.
  rewrite review_clean_run.
  destruct (exists_ (completed_bookings _ _ _ _)); [|congruence].
  destruct (_ ++ _); [|congruence].
  destruct adding; run; (destruct (negb _); [congruence|]);
    (destruct (exists_ _); [congruence|]); [|congruence].
  case_bool_decide; congruence.
Qed.

Lemma run_validation_run (data : ReviewData.t) (request_user : Z)
    (instance : option (Z * ReviewRow.t)) (now : Z) (st : Store) :
  ReviewSerializer.run_validation data request_user instance now st =
  (st,
   match ReviewSerializer.required_errors data ++ ReviewSerializer.field_errors data with
   | [] =>
       if ReviewSerializer.unique_together data instance st
       then Raise (ValidationError [DuplicateReview])
       else if negb (exists_ (completed_bookings request_user (ReviewData.property data)
                                now st))
       then Raise (ValidationError [NoEligibleStay])
       else if exists_ (reviews_of request_user (ReviewData.property data) st)
               && negb (bool_decide (is_Some instance))
       then Raise (ValidationError [DuplicateReview])
       else Ok data
   | es => Raise (ValidationError es)
   end).
Proof.
  unfold ReviewSerializer.run_validation, ReviewSerializer.validate.
  destruct (_ ++ _); [|done]. run.
  destruct (ReviewSerializer.unique_together data instance st); [done|].
  destruct (negb (exists_ (completed_bookings _ _ _ _))); [done|].
  by destruct (exists_ (reviews_of _ _ _) && _).
Qed.

Lemma required_errors_nil (data : ReviewData.t) :
  ReviewSerializer.required_errors data = []
  ↔ is_Some (ReviewData.property data) ∧ is_Some (ReviewData.user data).
Proof.
  unfold ReviewSerializer.required_errors.
  destruct (ReviewData.property data), (ReviewData.user data); simpl;
    split; try done; try (intros [[? ?] [? ?]]; done); eauto.
Qed.

(** A [run_validation] that raises leaves the store as it was. *)
Lemma run_validation_Raise (data : ReviewData.t) (request_user : Z)
    (instance : option (Z * ReviewRow.t)) (now : Z) (st st' : Store) (x : Exception) :
  ReviewSerializer.run_validation data request_user instance now st = (st', Raise x) →
  st' = st.
Proof. rewrite run_validation_run. by intros [= <- _]. Qed.

(** What a [run_validation] that returns has checked. *)
Lemma run_validation_Ok (data : ReviewData.t) (request_user : Z)
    (instance : option (Z * ReviewRow.t)) (now : Z) (st st' : Store)
    (validated_data : ReviewData.t) :
  ReviewSerializer.run_validation data request_user instance now st
  = (st', Ok validated_data) →
  st' = st ∧ validated_data = data
  ∧ ∃ p u,
      ReviewData.property data = Some p ∧ ReviewData.user data = Some u
      ∧ ReviewSerializer.field_errors data = []
      ∧ ReviewSerializer.unique_together data instance st = false
      ∧ exists_ (completed_bookings request_user (Some p) now st) = true
      ∧ (instance = None → exists_ (reviews_of request_user (Some p) st) = false).
Proof.
  rewrite run_validation_run.
  destruct (ReviewSerializer.required_errors data) eqn:Hreq; [|done]. simpl.
  apply required_errors_nil in Hreq as [[p Hp] [u Hu]].
  destruct (ReviewSerializer.field_errors data) eqn:Hf; [|done].
  destruct (ReviewSerializer.unique_together data instance st) eqn:Hq; [done|].
  rewrite Hp.
  destruct (exists_ (completed_bookings _ _ _ _)) eqn:Hc; [|done]. simpl.
  destruct (exists_ (reviews_of _ _ _)) eqn:Hd; simpl.
  - case_bool_decide as Hi; [|done]. intros [= <- <-].
    repeat split; try done. exists p, u. repeat split; try done.
    intros ->. by destruct Hi.
  - intros [= <- <-]. repeat split; try done. exists p, u. by repeat split.
Qed.


(** A [submit_review] that raises leaves the store as it was. *)
Lemma submit_review_Raise (data : ReviewData.t) (author new_pk now : Z)
    (st st' : Store) (x : Exception) :
  submit_review data author new_pk now st = (st', Raise x) → st' = st.
Proof.
  unfold submit_review, bind at 1.
  destruct (ReviewSerializer.run_validation data author None now st)
    as [st1 [d|e]] eqn:Hv.
  - apply run_validation_Ok in Hv as (-> & -> & _).
    unfold ReviewSerializer.create.
    destruct (ReviewData.property data); [|run; congruence].
    apply review_save_Raise.
  - apply run_validation_Raise in Hv as ->. congruence.
Qed.

(** What a successful [submit_review] has checked and written. *)
Lemma submit_review_Ok (data : ReviewData.t) (author new_pk now : Z)
    (st st' : Store) (r : ReviewRow.t) :
  submit_review data author new_pk now st = (st', Ok r) →
  ∃ p,
    ReviewData.property data = Some p
    ∧ ReviewSerializer.field_errors data = []
    ∧ exists_ (completed_bookings author (Some p) now st) = true
    ∧ reviews_of author (Some p) st = ∅
    ∧ reviews_of (default author (ReviewData.user data)) (Some p) st = ∅
    ∧ reviews st !! new_pk = None
    ∧ r = ReviewRow.mk p (default author (ReviewData.user data))
            (ReviewData.rating data) (ReviewData.comment data) now
    ∧ st' = mkStore (properties st) (bookings st) (<[new_pk := r]> (reviews st)).
Proof.
  unfold submit_review, bind at 1.
  destruct (ReviewSerializer.run_validation data author None now st)
    as [st1 [d|e]] eqn:Hv; [|done].
  apply run_validation_Ok in Hv as (-> & -> & p & u & Hp & _ & Hf & _ & Hc & Hd).
  specialize (Hd eq_refl).
  unfold ReviewSerializer.create. rewrite Hp.
  intros (_ & _ & Hu & Hpk & -> & ->)%review_save_Ok. simpl in *.
  exists p. repeat split; try done.
  - by apply exists_false.
  - specialize (Hpk eq_refl). apply map_eq. intros k. rewrite lookup_empty.
    destruct (decide (k = new_pk)) as [->|Hk].
    + apply map_lookup_filter_None. by left.
    + apply (f_equal (λ m, m !! k)) in Hu.
      by rewrite lookup_delete_ne, lookup_empty in Hu.
  - by apply Hpk.
Qed.

(** ** Cancelling and editing *)

Lemma cancel_booking_store (pk now : Z) (st st' : Store) (x : result BookingRow.t) :
  cancel_booking pk now st = (st', x) →
  st' = st
  ∨ ∃ b, bookings st !! pk = Some b
      ∧ st' = mkStore (properties st)
                (<[pk := BookingRow.mk (BookingRow.property b) (BookingRow.user b)
                           (BookingRow.start_date b) (BookingRow.end_date b)
                           (BookingRow.total_price b) canceled (BookingRow.created_at b)]>
                   (bookings st))
                (reviews st).
Proof.
  unfold cancel_booking, BookingViewSet.get_object. run.
  destruct (bookings st !! pk) as [b|] eqn:Hb; [|intros [= <- _]; by left]. simpl.
  destruct (Booking.can_cancel b now); intros [= <- _]; [|by left].
  right. by exists b.
Qed.

Lemma update_review_store (pk : Z) (data : ReviewData.t) (author now : Z)
    (st st' : Store) (x : result ReviewRow.t) :
  update_review pk data author now st = (st', x) →
  st' = st
  ∨ ∃ r r', reviews st !! pk = Some r
      ∧ ReviewRow.user r' = ReviewRow.user r
      ∧ ReviewRow.property r' = ReviewRow.property r
      ∧ delete pk (reviews_of (ReviewRow.user r) (Some (ReviewRow.property r)) st) = ∅
      ∧ st' = mkStore (properties st) (bookings st) (<[pk := r']> (reviews st)).
Proof.
  unfold update_review. unfold bind at 1. simpl.
  destruct (reviews st !! pk) as [r|] eqn:Hr; [|intros [= <- _]; by left].
  unfold bind.
  destruct (ReviewSerializer.run_validation data author (Some (pk, r)) now st)
    as [st1 [d|e]] eqn:Hv;
    [|apply run_validation_Raise in Hv as ->; intros [= <- _]; by left].
  apply run_validation_Ok in Hv as (-> & -> & _).
  unfold ReviewSerializer.update.
  destruct x as [r'|x]; intros Hsave.
  - apply review_save_Ok in Hsave as (_ & _ & Hu & _ & -> & ->).
    right. simpl in *.
    exists r, (ReviewRow.mk (ReviewRow.property r) (ReviewRow.user r)
                 (ReviewData.rating data) (ReviewData.comment data)
                 (ReviewRow.created_at r)).
    repeat split; done.
  - apply review_save_Raise in Hsave as ->. by left.
Qed.

(** ** The safety invariant *)

(** Writing a row whose range is free keeps the invariant, whether the
    key is new or the row replaces an older one. *)
Lemma no_double_booking_write (st : Store) (pk : Z) (b : BookingRow.t) :
  no_double_booking st →
  Listing.is_available (BookingRow.property b)
    (BookingRow.start_date b) (BookingRow.end_date b) st = true →
  no_double_booking (mkStore (properties st) (<[pk := b]> (bookings st)) (reviews st)).
Proof.
  intros Hinv Ha.
  apply (is_available_true _ (range b)) in Ha.
  assert (∀ k c, bookings st !! k = Some c →
                 BookingRow.property c = BookingRow.property b → active c →
                 overlaps (range c) (range b) = false
                 ∧ overlaps (range b) (range c) = false) as Hfree.
  { intros k c Hk Hp Hc. specialize (Ha k c Hk Hp Hc).
    revert Ha. unfold overlaps_inclusive, overlaps.
    rewrite !andb_false_iff, !bool_decide_eq_false. lia. }
  intros i j a c Hi Hj Hij Hp Haa Hac. simpl in Hi, Hj.
  destruct (decide (i = pk)) as [->|Hipk], (decide (j = pk)) as [->|Hjpk]; try done.
  - rewrite lookup_insert_eq in Hi. rewrite lookup_insert_ne in Hj by done.
    injection Hi as <-. by apply (Hfree j c).
  - rewrite lookup_insert_eq in Hj. rewrite lookup_insert_ne in Hi by done.
    injection Hj as <-. by apply (Hfree i a).
  - rewrite lookup_insert_ne in Hi, Hj by done. by apply (Hinv i j).
Qed.

(** Taking a booking out of the active ones keeps the invariant. *)
Lemma no_double_booking_cancel (st : Store) (pk : Z) (b : BookingRow.t) :
  no_double_booking st → BookingRow.status b = canceled →
  no_double_booking (mkStore (properties st) (<[pk := b]> (bookings st)) (reviews st)).
Proof.
  intros Hinv Hb i j a c Hi Hj Hij Hp Haa Hac. simpl in Hi, Hj.
  destruct (decide (i = pk)) as [->|Hipk], (decide (j = pk)) as [->|Hjpk]; try done.
  - rewrite lookup_insert_eq in Hi. injection Hi as <-.
    destruct Haa; congruence.
  - rewrite lookup_insert_eq in Hj. injection Hj as <-.
    destruct Hac; congruence.
  - rewrite lookup_insert_ne in Hi, Hj by done. by apply (Hinv i j).
Qed.

Lemma no_double_booking_perform {fv : FieldValidation} (op : Operation) (now : Z)
    (st : Store) :
  no_double_booking st → no_double_booking (perform op now st).
Proof.
  intros Hinv. destruct op as [data u pk|pk data|pk|data a pk|pk data a]; simpl.
  - destruct (create_booking data u pk now st) as [st' [b|x]] eqn:Hc; simpl.
    + apply create_booking_Ok in Hc as (p & l & s & e & _ & _ & _ & _ & _ & _ & Ha & _ & -> & ->).
      by apply no_double_booking_write.
    + by apply create_booking_Raise in Hc as ->.
  - destruct (update_booking pk data now st) as [st' [b|x]] eqn:Hu; simpl.
    + apply update_booking_Ok in Hu as (b0 & l & s & e & _ & _ & _ & _ & _ & _ & Ha & -> & ->).
      by apply no_double_booking_write.
    + by apply update_booking_Raise in Hu as ->.
  - destruct (cancel_booking pk now st) as [st' x] eqn:Hc; simpl.
    apply cancel_booking_store in Hc as [->|(b & _ & ->)]; [done|].
    by apply no_double_booking_cancel.
  - destruct (submit_review data a pk now st) as [st' [r|x]] eqn:Hs; simpl.
    + apply submit_review_Ok in Hs as (p & _ & _ & _ & _ & _ & _ & _ & ->). done.
    + by apply submit_review_Raise in Hs as ->.
  - destruct (update_review pk data a now st) as [st' x] eqn:Hu; simpl.
    apply update_review_store in Hu as [->|(r & r' & _ & _ & _ & _ & ->)]; done.
Qed.

(** C1: performing any sequence of operations (booking creation,
    update, cancellation, and the review operations), one after the
    other and each at any time, from a store in which no two distinct
    active bookings of a property overlap, leads to such a store. *)
Theorem no_double_booking_invariant {fv : FieldValidation}
    (ops : list (Z * Operation)) (st : Store) :
  no_double_booking st → no_double_booking (run_ops ops st).
Proof.
  unfold run_ops. revert st.
  induction ops as [|[now op] ops IH]; intros st Hinv; simpl; [done|].
  apply IH. by apply no_double_booking_perform.
Qed.

Lemma no_double_booking_invariant_witness :
  no_double_booking
    (run_ops (fv := example_validation)
       [ (day 5, CreateBooking (BookingData.mk (Some 1) None (Some 10) (Some 15) None) 3 7);
         (day 5, CreateBooking (BookingData.mk (Some 1) None (Some 12) (Some 20) None) 4 8);
         (day 6, CreateBooking (BookingData.mk (Some 1) None (Some 16) (Some 19)
                                  (Some confirmed)) 4 9);
         (day 6, UpdateBooking 9 (BookingData.mk (Some 1) None (Some 20) (Some 25) None));
         (day 7, CancelBooking 7) ]
       st_empty).
Proof.
  apply no_double_booking_invariant.
  intros i j a b Hi. simpl in Hi. rewrite lookup_empty in Hi. done.
Defined.

(** ** Price *)

(** C5: a booking that [create_booking] persists is stored under its key
    with a total price of the number of nights, end date minus start
    date, times the nightly rate of its property; at 100.00 a night,
    three nights cost 300.00. *)
Theorem total_price_on_admission {fv : FieldValidation} (data : BookingData.t)
    (request_user new_pk now : Z) (st st' : Store) (b : BookingRow.t) :
  create_booking data request_user new_pk now st = (st', Ok b) →
  bookings st' !! new_pk = Some b
  ∧ ∃ l, properties st !! BookingRow.property b = Some l
       ∧ nights (range b) = BookingRow.end_date b - BookingRow.start_date b
       ∧ BookingRow.total_price b = nights (range b) * ListingRow.pricepernight l
       ∧ (ListingRow.pricepernight l = 10000 → nights (range b) = 3 →
          BookingRow.total_price b = 30000).
Proof.
  intros (p & l & s & e & _ & Hl & _ & _ & _ & _ & _ & _ & -> & ->)%create_booking_Ok.
  simpl. split; [apply lookup_insert_eq|].
  exists l. unfold nights. simpl. repeat split; try done.
  intros -> ->. done.
Qed.

Lemma total_price_on_admission_witness :
  ∃ st' b,
    create_booking (fv := example_validation)
      (BookingData.mk (Some 1) None (Some 16) (Some 19) None) 4 8 (day 5) st_booked
    = (st', Ok b)
    ∧ bookings st' !! 8 = Some b
    ∧ BookingRow.total_price b = 30000.
Proof.
  eexists _, _. split; [vm_compute; reflexivity|].
  match goal with
  | |- bookings ?st' !! _ = Some ?b ∧ _ =>
      destruct (total_price_on_admission (fv := example_validation)
                  (BookingData.mk (Some 1) None (Some 16) (Some 19) None) 4 8 (day 5)
                  st_booked st' b) as (Hb & l & Hl & _ & _ & Hp)
  end.
  - vm_compute. reflexivity.
  - split; [exact Hb|]. apply Hp.
    + vm_compute in Hl. injection Hl as <-. reflexivity.
    + reflexivity.
Defined.

(** ** Rejected dates *)

(** C6: a [create_booking] whose end date is not after its start date
    raises InvalidRange, one whose range is valid and starts before
    today raises PastDate, and either leaves the store as it was. *)
Theorem create_booking_rejects_dates {fv : FieldValidation} (data : BookingData.t)
    (request_user new_pk now : Z) (st : Store) (s e : Z) :
  BookingData.start_date data = Some s → BookingData.end_date data = Some e →
  (e ≤ s →
   create_booking data request_user new_pk now st
   = (st, Raise (ValidationError [InvalidRange])))
  ∧ (s < e → s < date_of now →
     create_booking data request_user new_pk now st
     = (st, Raise (ValidationError [PastDate]))).
Proof.
  intros Hs He.
  unfold create_booking, bind. rewrite validate_run, Hs, He.
  split.
  - intros Hes. by rewrite bool_decide_eq_true_2.
  - intros Hse Hpast. rewrite bool_decide_eq_false_2 by lia.
    by rewrite bool_decide_eq_true_2.
Qed.

Lemma create_booking_rejects_dates_witness :
  create_booking (fv := example_validation)
    (BookingData.mk (Some 1) None (Some 20) (Some 20) None) 4 8 (day 5) st_booked
  = (st_booked, Raise (ValidationError [InvalidRange]))
  ∧ create_booking (fv := example_validation)
      (BookingData.mk (Some 1) None (Some 4) (Some 6) None) 4 8 (day 5) st_booked
    = (st_booked, Raise (ValidationError [PastDate])).
Proof.
  split.
  - apply (proj1 (create_booking_rejects_dates (fv := example_validation)
                    (BookingData.mk (Some 1) None (Some 20) (Some 20) None) 4 8 (day 5)
                    st_booked 20 20 eq_refl eq_refl)).
    lia.
  - apply (proj2 (create_booking_rejects_dates (fv := example_validation)
                    (BookingData.mk (Some 1) None (Some 4) (Some 6) None) 4 8 (day 5)
                    st_booked 4 6 eq_refl eq_refl)).
    + lia.
    + vm_compute. reflexivity.
Defined.

(** ** Updating a booking *)

(** A supplied [property] or [user] does not reach the instance. *)
Lemma serializer_update_discards {fv : FieldValidation} (pk : Z) (instance : BookingRow.t)
    (data : BookingData.t) (now : Z) (p u : option Z) :
  BookingSerializer.update pk instance
    (BookingData.mk p u (BookingData.start_date data) (BookingData.end_date data)
       (BookingData.status data)) now
  = BookingSerializer.update pk instance data now.
Proof. reflexivity. Qed.

(** C10: an [update_booking] that succeeds rewrites the row of that
    booking only, leaving its property, its requester and its creation
    time as they were, whatever property or user the request supplied;
    the dates and the status come from the request and the total price
    is derived from the new dates; [BookingSerializer.update] itself
    gives the same result for any supplied property and user. *)
Theorem update_keeps_property_and_user {fv : FieldValidation} (pk : Z)
    (data : BookingData.t) (now : Z) (st st' : Store) (b' : BookingRow.t) :
  update_booking pk data now st = (st', Ok b') →
  (∃ b l,
     bookings st !! pk = Some b
     ∧ properties st !! BookingRow.property b = Some l
     ∧ BookingRow.property b' = BookingRow.property b
     ∧ BookingRow.user b' = BookingRow.user b
     ∧ BookingRow.created_at b' = BookingRow.created_at b
     ∧ Some (BookingRow.start_date b') = BookingData.start_date data
     ∧ Some (BookingRow.end_date b') = BookingData.end_date data
     ∧ BookingRow.status b' = default (BookingRow.status b) (BookingData.status data)
     ∧ BookingRow.total_price b'
       = (BookingRow.end_date b' - BookingRow.start_date b') * ListingRow.pricepernight l
     ∧ bookings st' = <[pk := b']> (bookings st)
     ∧ (∀ j, j ≠ pk → bookings st' !! j = bookings st !! j)
     ∧ properties st' = properties st ∧ reviews st' = reviews st)
  ∧ (∀ instance p u,
       BookingSerializer.update pk instance
         (BookingData.mk p u (BookingData.start_date data) (BookingData.end_date data)
            (BookingData.status data)) now
       = BookingSerializer.update pk instance data now).
Proof.
  intros (b & l & s & e & Hb & Hl & Hs & He & _ & _ & _ & -> & ->)%update_booking_Ok.
  split; [|intros; apply serializer_update_discards].
  exists b, l. simpl. repeat split; try done.
  intros j Hj. by rewrite lookup_insert_ne.
Qed.

Lemma update_keeps_property_and_user_witness :
  ∃ st' b',
    update_booking (fv := example_validation) 7
      (BookingData.mk (Some 2) (Some 9) (Some 20) (Some 24) (Some confirmed)) (day 5)
      st_booked
    = (st', Ok b')
    ∧ BookingRow.property b' = 1 ∧ BookingRow.user b' = 3.
Proof.
  eexists _, _. split; [vm_compute; reflexivity|].
  match goal with
  | |- BookingRow.property ?b' = _ ∧ _ =>
      destruct (update_keeps_property_and_user (fv := example_validation) 7
                  (BookingData.mk (Some 2) (Some 9) (Some 20) (Some 24) (Some confirmed))
                  (day 5) st_booked
                  (mkStore (properties st_booked) (<[7 := b']> (bookings st_booked))
                     (reviews st_booked)) b')
        as [(b & l & Hb & _ & Hp & Hu & _) _]
  end.
  - vm_compute. reflexivity.
  - vm_compute in Hb. injection Hb as <-. split; [exact Hp|exact Hu].
Defined.

(** An active booking cannot be updated to a range that shares a date
    with the one it has: the availability checks count the booking
    itself. *)
Lemma update_booking_blocked_by_itself {fv : FieldValidation} (pk : Z)
    (data : BookingData.t) (now : Z) (st : Store) (b : BookingRow.t) (s e : Z) :
  bookings st !! pk = Some b → active b →
  BookingData.start_date data = Some s → BookingData.end_date data = Some e →
  overlaps_inclusive (range b) (mkRange s e) = true →
  ∃ x, update_booking pk data now st = (st, Raise x).
Proof.
  intros Hb Ha Hs He Ho.
  destruct (update_booking pk data now st) as [st' [b'|x]] eqn:Hu.
  - apply update_booking_Ok in Hu
      as (b0 & l & s0 & e0 & Hb0 & _ & Hs0 & He0 & _ & _ & Hav & _).
    rewrite Hb in Hb0. injection Hb0 as <-.
    rewrite Hs in Hs0. injection Hs0 as <-.
    rewrite He in He0. injection He0 as <-.
    apply (is_available_true _ (mkRange s e)) in Hav.
    rewrite (Hav pk b Hb eq_refl Ha) in Ho. done.
  - apply update_booking_Raise in Hu as ->. by exists x.
Qed.

(** C4 on the code: with a pending booking of days 10 to 15, an update
    that keeps the dates and confirms it is refused as unavailable
    against the booking itself, and so is one that shortens the stay;
    when no property comes with the request, the check in [clean] is
    reached and reading [booking_id] raises. *)
Theorem update_booking_conflicts_with_itself {fv : FieldValidation} :
  update_booking 7 (BookingData.mk (Some 1) (Some 3) (Some 10) (Some 15) (Some confirmed))
    (day 5) st_booked
  = (st_booked, Raise (ValidationError [PropertyUnavailable]))
  ∧ update_booking 7 (BookingData.mk (Some 1) (Some 3) (Some 10) (Some 14) None)
      (day 5) st_booked
    = (st_booked, Raise (ValidationError [PropertyUnavailable]))
  ∧ update_booking 7 (BookingData.mk None None (Some 10) (Some 14) None)
      (day 5) st_booked
    = (st_booked, Raise AttributeError).
Proof. repeat split; vm_compute; reflexivity. Qed.

(** ** Reviews *)

Lemma exists_completed_bookings (author p now : Z) (st : Store) :
  exists_ (completed_bookings author (Some p) now st) = true
  ↔ completed_stay author p now st.
Proof.
  rewrite exists_true. unfold completed_bookings, completed_stay.
  split; intros (k & b & H); exists k, b.
  - apply map_lookup_filter_Some in H as (Hk & Hu & [= Hp] & Hs & He). done.
  - destruct H as (Hk & Hu & Hp & Hs & He).
    apply map_lookup_filter_Some. simpl. by rewrite Hp.
Qed.

Lemma field_errors_nil (data : ReviewData.t) :
  ReviewSerializer.field_errors data = []
  ↔ 1 ≤ ReviewData.rating data ≤ 5 ∧ ReviewData.comment data ≠ "".
Proof.
  unfold ReviewSerializer.field_errors, ReviewSerializer.validate_rating.
  repeat case_bool_decide; simpl; split; intros Hx; try done;
    try (destruct Hx; first [done | lia]); split; first [lia | done].
Qed.










(** ** Average rating *)

Lemma round_half_even_spec (n d : Z) :
  0 < d →
  n `div` d ≤ Float64.round_half_even n d ≤ n `div` d + 1
  ∧ Z.abs (2 * (Float64.round_half_even n d * d - n)) ≤ d
  ∧ (n `mod` d = 0 → Float64.round_half_even n d = n `div` d).
Proof.
  intros Hd. unfold Float64.round_half_even.
  pose proof (Z.div_mod n d ltac:(lia)) as Hn.
  pose proof (Z.mod_pos_bound n d Hd) as Hr.
  repeat case_bool_decide; try destruct (Z.even _); repeat split; try lia; nia.
Qed.

Lemma exponent_range (a b : Z) :
  0 < b → b ≤ a → a ≤ 5 * b → -53 ≤ Float64.exponent a b ≤ -49.
Proof.
  intros Hb Hlo Hhi.
  assert (Z.log2 b ≤ Z.log2 a) by by apply Z.log2_le_mono.
  assert (Z.log2 a ≤ Z.log2 b + 3).
  { transitivity (Z.log2 (b * 2 ^ 3)); [apply Z.log2_le_mono; lia|].
    rewrite Z.log2_mul_pow2 by lia. lia. }
  unfold Float64.exponent. case_bool_decide; lia.
Qed.


(** The mantissa and the scale of [div_pos a b] for a quotient between 1 and 5. *)
Lemma div_pos_unfold (a b : Z) :
  0 < b → b ≤ a → a ≤ 5 * b →
  ∃ k, 49 ≤ k ≤ 53
       ∧ Float64.div a b
         = Qmake (Float64.round_half_even (a * 2 ^ k) b) (Z.to_pos (2 ^ k)).
Proof.
  intros Hb Hlo Hhi.
  pose proof (exponent_range a b Hb Hlo Hhi) as He.
  exists (- Float64.exponent a b). split; [lia|].
  unfold Float64.div, Float64.div_pos, Float64.scale.
  rewrite !bool_decide_eq_false_2 by lia.
  rewrite Z.max_r, Z.max_l by lia. by rewrite Z.mul_1_r.
Qed.

Lemma div_between (a b lo hi : Z) :
  0 < b → 1 ≤ lo → hi ≤ 5 → lo * b ≤ a ≤ hi * b →
  Qle (inject_Z lo) (Float64.div a b) ∧ Qle (Float64.div a b) (inject_Z hi).
Proof.
  intros Hb Hlo Hhi [Ha1 Ha2].
  destruct (div_pos_unfold a b) as (k & Hk & ->); [lia|nia|nia|].
  assert (0 < 2 ^ k) as HP by (apply Z.pow_pos_nonneg; lia).
  destruct (round_half_even_spec (a * 2 ^ k) b Hb) as ([Hq1 Hq2] & _ & Hexact).
  pose proof (Z.div_mod (a * 2 ^ k) b ltac:(lia)) as Hn.
  pose proof (Z.mod_pos_bound (a * 2 ^ k) b Hb) as Hr.
  unfold Qle, inject_Z. cbn [Qnum Qden]. rewrite Z2Pos.id by done.
  set (P := 2 ^ k) in *. set (m := Float64.round_half_even _ _) in *.
  set (q := (a * P) `div` b) in *. set (r := (a * P) `mod` b) in *.
  split.
  - assert (lo * P ≤ q) by (apply Z.div_le_lower_bound; [done|nia]). lia.
  - assert (q ≤ hi * P) by (apply Z.div_le_upper_bound; [done|nia]).
    destruct (decide (q = hi * P)) as [Heq|Hne]; [|lia].
    assert (r = 0) as Hr0 by nia. rewrite (Hexact Hr0). lia.
Qed.



Lemma sum_bounds (values : list Z) :
  Forall (λ v, 1 ≤ v ≤ 5) values →
  Z.of_nat (length values) ≤ foldr Z.add 0 values ≤ 5 * Z.of_nat (length values).
Proof.
  induction 1 as [|v vs Hv _ IH]; simpl; lia.
Qed.







(** ** Requests in flight *)

(** A request that runs alone takes its three steps to the result of
    [create_booking]. *)
Lemma solo_run {fv : FieldValidation} (now : Z) (r : Request) (st : Store) :
  let c1 := step now (Received r) st in
  let c2 := step now c1.2 c1.1 in
  let c3 := step now c2.2 c2.1 in
  c3 = (let (st', x) := create_booking (req_data r) (req_user r) (req_pk r) now st in
        (st', Finished x)).
Proof.
  unfold create_booking, BookingViewSet.serializer_save,
    BookingSerializer.create, Booking.save. simpl. unfold bind.
  destruct (BookingSerializer.validate (req_data r) now st) as [st1 [vd|x]]; [|done].
  destruct (BookingSerializer.build _ _ st1) as [st2 [b|x]]; [|done]. simpl.
  destruct (Booking.full_clean b true now st2) as [st3 [[]|x]]; [|done]. simpl.
  by destruct (Booking.write _ _ _ _ _).
Qed.

Lemma two_requests_competing : competing 1 (day 5) two_requests.
Proof.
  split.
  - intros r Hr. apply elem_of_cons in Hr as [-> | Hr];
      [|apply list_elem_of_singleton in Hr as ->];
      (split; [reflexivity|]; split; [discriminate|]);
      exists (mkRange 20 25); split; try reflexivity; vm_compute; discriminate.
  - intros r r' a a' Hr Hr' Ha Ha'.
    apply elem_of_cons in Hr as [-> | Hr];
      [|apply list_elem_of_singleton in Hr as ->];
      (apply elem_of_cons in Hr' as [-> | Hr'];
       [|apply list_elem_of_singleton in Hr' as ->]);
      injection Ha as <-; injection Ha' as <-; reflexivity.
Defined.

(** C2 as stated fails: two requests compete for days 20 to 25 of a free
    property; when their steps alternate, both find the property free
    and both are stored. *)
Lemma concurrent_requests_both_succeed :
  competing 1 (day 5) two_requests
  ∧ ¬ exactly_one_succeeds (fv := example_validation) (day 5) st_empty two_requests.
Proof.
  split; [apply two_requests_competing|].
  intros H. specialize (H [0; 1; 0; 1; 0; 1]%nat). simpl in H.
  destruct H as [H _]; [vm_compute; reflexivity|].
  vm_compute in H. discriminate.
Qed.

(** The checks that make [create_booking] store a booking. *)
Lemma create_booking_succeeds {fv : FieldValidation} (data : BookingData.t)
    (request_user new_pk now : Z) (st : Store) (p : Z) (l : ListingRow.t) (s e : Z) :
  BookingData.property data = Some p →
  BookingData.start_date data = Some s → BookingData.end_date data = Some e →
  properties st !! p = Some l →
  s < e → date_of now ≤ s →
  Listing.is_available p s e st = true →
  bookings st !! new_pk = None →
  booking_clean_fields
    (BookingRow.mk p request_user s e ((e - s) * ListingRow.pricepernight l)
       (default pending (BookingData.status data)) 0) = true →
  0 < ListingRow.pricepernight l →
  let b := BookingRow.mk p request_user s e ((e - s) * ListingRow.pricepernight l)
             (default pending (BookingData.status data)) now in
  create_booking data request_user new_pk now st
  = (mkStore (properties st) (<[new_pk := b]> (bookings st)) (reviews st), Ok b).
Proof.
  intros Hp Hs He Hl Hse Hnow Ha Hpk Hf Hprice b.
  unfold create_booking, bind at 1.
  rewrite validate_run, Hs, He, Hp, Ha.
  rewrite !bool_decide_eq_false_2 by lia.
  unfold BookingViewSet.serializer_save, BookingSerializer.create,
    BookingSerializer.build, BookingViewSet.with_user. simpl.
  rewrite Hs, He, Hp. unfold bind at 1 2. rewrite calculate_total_price_run.
  simpl. rewrite Hl. run.
  apply (save_new new_pk
           (BookingRow.mk p request_user s e ((e - s) * ListingRow.pricepernight l)
              (default pending (BookingData.status data)) 0)); simpl; try done.
  nia.
Qed.

(** A request for a range in which a date is taken is refused. *)
Lemma create_booking_refused {fv : FieldValidation} (data : BookingData.t)
    (request_user new_pk now : Z) (st : Store) (p s e : Z) :
  BookingData.property data = Some p →
  BookingData.start_date data = Some s → BookingData.end_date data = Some e →
  s < e → date_of now ≤ s →
  Listing.is_available p s e st = false →
  create_booking data request_user new_pk now st
  = (st, Raise (ValidationError [PropertyUnavailable])).
Proof.
  intros Hp Hs He Hse Hnow Ha.
  unfold create_booking, bind at 1.
  rewrite validate_run, Hs, He, Hp, Ha.
  by rewrite !bool_decide_eq_false_2 by lia.
Qed.

Lemma insert_middle {A} (l1 l2 : list A) (x y : A) :
  <[length l1 := y]> (l1 ++ x :: l2) = l1 ++ y :: l2.
Proof.
  induction l1 as [|z l1 IH]; [done|]. simpl. by rewrite IH.
Qed.

(** Three steps of the thread at the head of the waiting ones. *)
Lemma run_next {fv : FieldValidation} (now : Z) (r : Request) (st : Store)
    (served waiting : list Thread) :
  run_schedule now [length served; length served; length served]
    (st, served ++ Received r :: waiting)
  = (let (st', x) := create_booking (req_data r) (req_user r) (req_pk r) now st in
     (st', served ++ Finished x :: waiting)).
Proof.
  pose proof (solo_run now r st) as Hsolo. cbv zeta in Hsolo.
  unfold run_schedule. cbn [foldl]. unfold step_at at 3. cbn [fst snd].
  rewrite list_lookup_middle by done.
  revert Hsolo. destruct (step now (Received r) st) as [st1 t1]. cbn [fst snd].
  intros Hsolo. rewrite insert_middle.
  unfold step_at at 2. cbn [fst snd]. rewrite list_lookup_middle by done.
  revert Hsolo. destruct (step now t1 st1) as [st2 t2]. cbn [fst snd].
  intros Hsolo. rewrite insert_middle.
  unfold step_at. cbn [fst snd]. rewrite list_lookup_middle by done.
  rewrite Hsolo.
  destruct (create_booking _ _ _ _ _) as [st3 x].
  by rewrite insert_middle.
Qed.

(** Once a booking of the property holds the range, the waiting
    requests are refused one after the other. *)
Lemma serial_refused {fv : FieldValidation} (now : Z) (p : Z) (st : Store)
    (k0 : Z) (b0 : BookingRow.t) (rs : list Request) (served : list Thread) :
  bookings st !! k0 = Some b0 → BookingRow.property b0 = p → active b0 →
  (∀ r, r ∈ rs →
     BookingData.property (req_data r) = Some p
     ∧ ∃ a, req_range r = Some a ∧ date_of now ≤ range_start a
            ∧ overlaps (range b0) a = true ∧ overlaps a a = true) →
  run_schedule now (serial (length served) (length rs)) (st, served ++ (Received <$> rs))
  = (st, served ++ ((λ _, Finished (Raise (ValidationError [PropertyUnavailable]))) <$> rs)).
Proof.
  intros Hk0 Hp0 Ha0. revert served. unfold run_schedule.
  induction rs as [|r rs IH]; intros served Hrs; [done|].
  cbn [length serial fmap list_fmap].
  rewrite foldl_app.
  pose proof (run_next now r st served (Received <$> rs)) as Hnext.
  unfold run_schedule in Hnext. rewrite Hnext. clear Hnext.
  destruct (Hrs r) as (Hp & a & Hr & Hnow & Ho & Hv); [left|].
  unfold req_range in Hr.
  destruct (BookingData.start_date (req_data r)) as [s|] eqn:Hs; [|done].
  destruct (BookingData.end_date (req_data r)) as [e|] eqn:He; [|done].
  injection Hr as <-. simpl in *.
  rewrite (create_booking_refused _ _ _ _ _ p s e); try done.
  - replace (served ++ Finished (Raise (ValidationError [PropertyUnavailable]))
               :: (Received <$> rs))
      with ((served ++ [Finished (Raise (ValidationError [PropertyUnavailable]))])
              ++ (Received <$> rs)) by by rewrite <- app_assoc.
    replace (S (length served))
      with (length (served ++ [Finished (Raise (ValidationError [PropertyUnavailable]))]))
      by (rewrite length_app; simpl; lia).
    rewrite IH.
    + by rewrite <- app_assoc.
    + intros r' Hr'. apply Hrs. by right.
  - revert Hv. unfold overlaps. simpl.
    rewrite andb_true_iff, !bool_decide_eq_true. lia.
  - apply (is_available_false p (mkRange s e)).
    exists k0, b0. repeat split; try done.
    by apply overlaps_inclusive_of_overlaps.
Qed.

Lemma count_refused_all (rs : list Request) (f : Thread → bool) (t : Thread) :
  count f ((λ _, t) <$> rs) = if f t then length rs else 0%nat.
Proof.
  unfold count. induction rs as [|r rs IH]; [by destruct (f t)|].
  rewrite fmap_cons. destruct (f t) eqn:Hf.
  - rewrite filter_cons_True by done. cbn [length]. by rewrite IH.
  - rewrite filter_cons_False by (by rewrite Hf). done.
Qed.

(** C2, as the code has it: when competing requests are handled one
    after the other, each taking its three steps before the next
    starts, on a store where the property exists, the key of the first
    request is new, its range is free and its row passes the column
    validators, the first request is stored and every other one is
    refused with PropertyUnavailable. *)
Theorem serial_requests_one_success {fv : FieldValidation} (now p : Z) (st : Store)
    (l : ListingRow.t) (r0 : Request) (rs : list Request) (a0 : DateRange) :
  competing p now (r0 :: rs) →
  req_range r0 = Some a0 →
  properties st !! p = Some l → 0 < ListingRow.pricepernight l →
  Listing.is_available p (range_start a0) (range_end a0) st = true →
  bookings st !! req_pk r0 = None →
  booking_clean_fields
    (BookingRow.mk p (req_user r0) (range_start a0) (range_end a0)
       (nights a0 * ListingRow.pricepernight l)
       (default pending (BookingData.status (req_data r0))) 0) = true →
  let b0 := BookingRow.mk p (req_user r0) (range_start a0) (range_end a0)
              (nights a0 * ListingRow.pricepernight l)
              (default pending (BookingData.status (req_data r0))) now in
  let c := run_schedule now (serial 0 (S (length rs))) (st, Received <$> (r0 :: rs)) in
  c = (mkStore (properties st) (<[req_pk r0 := b0]> (bookings st)) (reviews st),
       Finished (Ok b0)
       :: ((λ _, Finished (Raise (ValidationError [PropertyUnavailable]))) <$> rs))
  ∧ count finished c.2 = S (length rs)
  ∧ count succeeded c.2 = 1%nat
  ∧ count refused c.2 = length rs.
Proof.
  intros [Hall Hpair] Hr0 Hl Hprice Ha Hpk Hf b0 c.
  assert (c = (mkStore (properties st) (<[req_pk r0 := b0]> (bookings st)) (reviews st),
               Finished (Ok b0)
               :: ((λ _, Finished (Raise (ValidationError [PropertyUnavailable]))) <$> rs)))
    as Hc.
  { subst c. destruct (Hall r0) as (Hp & Hst & a & Hr0' & Hnow); [left|].
    rewrite Hr0 in Hr0'. injection Hr0' as <-.
    pose proof (Hpair r0 r0 a0 a0 (list_elem_of_here _ _) (list_elem_of_here _ _) Hr0 Hr0)
      as Hv.
    unfold req_range in Hr0.
    destruct (BookingData.start_date (req_data r0)) as [s|] eqn:Hs; [|done].
    destruct (BookingData.end_date (req_data r0)) as [e|] eqn:He; [|done].
    injection Hr0 as <-. unfold nights in *. cbn [range_start range_end] in *.
    assert (s < e) as Hse.
    { revert Hv. unfold overlaps. simpl.
      rewrite andb_true_iff, !bool_decide_eq_true. lia. }
    unfold run_schedule. cbn [serial]. rewrite fmap_cons, foldl_app.
    pose proof (run_next now r0 st [] (Received <$> rs)) as Hnext.
    unfold run_schedule in Hnext. cbn [length app] in Hnext. rewrite Hnext. clear Hnext.
    rewrite (create_booking_succeeds _ _ _ _ _ p l s e) by done.
    pose proof (serial_refused now p
                  (mkStore (properties st) (<[req_pk r0 := b0]> (bookings st)) (reviews st))
                  (req_pk r0) b0 rs [Finished (Ok b0)]) as Hrest.
    unfold run_schedule in Hrest. simpl in Hrest. apply Hrest; clear Hrest.
    - apply lookup_insert_eq.
    - done.
    - unfold active. simpl.
      destruct (BookingData.status (req_data r0)) as [[]|]; simpl; auto. done.
    - intros r Hr.
      destruct (Hall r) as (Hpr & _ & a & Hra & Hnowr); [by right|].
      split; [done|]. exists a. repeat split; try done.
      + apply (Hpair r0 r (mkRange s e) a); [left|by right| |done].
        unfold req_range. by rewrite Hs, He.
      + apply (Hpair r r a a); try done; by right. }
  split; [done|]. rewrite Hc. cbn [snd].
  unfold count at 1 2 3. rewrite !filter_cons_True by done.
  rewrite filter_cons_False by done. cbn [length].
  fold (count finished ((λ _, Finished (Raise (ValidationError [PropertyUnavailable])))
                          <$> rs)).
  fold (count succeeded ((λ _, Finished (Raise (ValidationError [PropertyUnavailable])))
                          <$> rs)).
  fold (count refused ((λ _, Finished (Raise (ValidationError [PropertyUnavailable])))
                          <$> rs)).
  by rewrite !count_refused_all.
Qed.

Lemma serial_requests_one_success_witness :
  let c := run_schedule (fv := example_validation) (day 5) (serial 0 2)
             (st_empty, Received <$> two_requests) in
  count finished c.2 = 2%nat ∧ count succeeded c.2 = 1%nat ∧ count refused c.2 = 1%nat.
Proof.
  apply (serial_requests_one_success (fv := example_validation) (day 5) 1 st_empty
           (ListingRow.mk 10000)
           (mkRequest (BookingData.mk (Some 1) None (Some 20) (Some 25) None) 4 8)
           [mkRequest (BookingData.mk (Some 1) None (Some 20) (Some 25) None) 5 9]
           (mkRange 20 25)).
  - apply two_requests_competing.
  - reflexivity.
  - reflexivity.
  - reflexivity.
  - reflexivity.
  - reflexivity.
  - reflexivity.
Defined.

(** * Further properties of the code *)

(** ** Bookings: when a request is admitted *)

(** What a successful [Booking.save] has checked besides the dates. *)
Lemma save_Ok_validated {fv : FieldValidation} (pk : Z) (self : BookingRow.t)
    (adding : bool) (now : Z) (st st' : Store) (b : BookingRow.t) :
  Booking.save pk self adding now st = (st', Ok b) →
  booking_clean_fields self = true
  ∧ 0 < BookingRow.total_price self
  ∧ is_Some (properties st !! BookingRow.property self).
Proof.
  unfold Booking.save, Booking.full_clean, Booking.write, bind at 1.
  rewrite clean_run.
  repeat case_bool_decide; try (destruct booking_clean_fields; simpl; done).
  destruct (properties st !! BookingRow.property self); [|destruct booking_clean_fields; done].
  destruct Listing.is_available;
    [|destruct adding, booking_clean_fields; done].
  destruct booking_clean_fields; [|done]. run.
  unfold Booking.check_constraints.
  destruct adding; simpl; repeat case_bool_decide; simpl; try done;
    intros _; repeat split; eauto; lia.
Qed.

(** Once [validate] has passed, [create_booking] is the save of the row
    built from the request. *)
Lemma create_booking_save {fv : FieldValidation} (data : BookingData.t)
    (request_user new_pk now : Z) (st : Store) (p : Z) (l : ListingRow.t) (s e : Z) :
  BookingData.property data = Some p →
  BookingData.start_date data = Some s → BookingData.end_date data = Some e →
  properties st !! p = Some l →
  s < e → date_of now ≤ s →
  Listing.is_available p s e st = true →
  create_booking data request_user new_pk now st
  = Booking.save new_pk
      (BookingRow.mk p request_user s e ((e - s) * ListingRow.pricepernight l)
         (default pending (BookingData.status data)) 0) true now st.
Proof.
  intros Hp Hs He Hl Hse Hnow Ha.
  unfold create_booking, bind at 1.
  rewrite validate_run, Hs, He, Hp, Ha.
  rewrite !bool_decide_eq_false_2 by lia.
  unfold BookingViewSet.serializer_save, BookingSerializer.create,
    BookingSerializer.build, BookingViewSet.with_user. simpl.
  rewrite Hs, He, Hp. unfold bind at 1 2. rewrite calculate_total_price_run.
  simpl. rewrite Hl. done.
Qed.

(** What a successful [create_booking] has checked. *)
Lemma create_booking_Ok_validated {fv : FieldValidation} (data : BookingData.t)
    (request_user new_pk now : Z) (st st' : Store) (b : BookingRow.t) :
  create_booking data request_user new_pk now st = (st', Ok b) →
  ∃ p l s e,
    BookingData.property data = Some p ∧ properties st !! p = Some l
    ∧ BookingData.start_date data = Some s ∧ BookingData.end_date data = Some e
    ∧ s < e ∧ date_of now ≤ s
    ∧ Listing.is_available p s e st = true
    ∧ bookings st !! new_pk = None
    ∧ booking_clean_fields
        (BookingRow.mk p request_user s e ((e - s) * ListingRow.pricepernight l)
           (default pending (BookingData.status data)) 0) = true
    ∧ 0 < ListingRow.pricepernight l.
Proof.
  intros Hc.
  pose proof Hc as (p & l & s & e & Hp & Hl & Hs & He & Hse & Hnow & Ha & Hpk & _)%create_booking_Ok.
  rewrite (create_booking_save _ _ _ _ _ p l s e) in Hc by done.
  apply save_Ok_validated in Hc as (Hf & Hprice & _). simpl in Hprice.
  exists p, l, s, e. repeat split; try done. nia.
Qed.

(** What a successful [create_booking] has written. *)
Lemma create_booking_store {fv : FieldValidation} (data : BookingData.t)
    (request_user new_pk now : Z) (st st' : Store) (b : BookingRow.t) :
  create_booking data request_user new_pk now st = (st', Ok b) →
  bookings st !! new_pk = None
  ∧ bookings st' !! new_pk = Some b
  ∧ (∀ k, k ≠ new_pk → bookings st' !! k = bookings st !! k)
  ∧ properties st' = properties st ∧ reviews st' = reviews st.
Proof.
  intros (p & l & s & e & _ & _ & _ & _ & _ & _ & _ & Hpk & -> & ->)%create_booking_Ok.
  simpl. repeat split; try done.
  - apply lookup_insert_eq.
  - intros k Hk. by rewrite lookup_insert_ne.
Qed.

(** A refused [update_review] has written nothing. *)
Lemma update_review_Raise (pk : Z) (data : ReviewData.t) (author now : Z)
    (st st' : Store) (x : Exception) :
  update_review pk data author now st = (st', Raise x) → st' = st.
Proof.
  intros Hu.
  unfold update_review in Hu. unfold bind at 1 in Hu. simpl in Hu.
  destruct (reviews st !! pk) as [r|]; [|by injection Hu as <-].
  unfold bind in Hu.
  destruct (ReviewSerializer.run_validation data author (Some (pk, r)) now st)
    as [st1 [d|e]] eqn:Hv.
  - apply run_validation_Ok in Hv as (-> & -> & _).
    by apply review_save_Raise in Hu.
  - apply run_validation_Raise in Hv as ->. by injection Hu as <-.
Qed.

(** X1: what a creation that [create_booking] carries out has passed:
    the request names an existing property and both dates, the end date
    is after the start date, the start date is not before today, no
    pending or confirmed booking of the property shares a date with the
    range, the key is new, the column validators accept the row and the
    nightly rate is positive. *)
Theorem create_booking_admitted_checks {fv : FieldValidation} (data : BookingData.t)
    (request_user new_pk now : Z) (st st' : Store) (b : BookingRow.t) :
  create_booking data request_user new_pk now st = (st', Ok b) →
  ∃ p l s e,
    BookingData.property data = Some p ∧ properties st !! p = Some l
    ∧ BookingData.start_date data = Some s ∧ BookingData.end_date data = Some e
    ∧ s < e ∧ date_of now ≤ s
    ∧ Listing.is_available p s e st = true
    ∧ bookings st !! new_pk = None
    ∧ booking_clean_fields
        (BookingRow.mk p request_user s e ((e - s) * ListingRow.pricepernight l)
           (default pending (BookingData.status data)) 0) = true
    ∧ 0 < ListingRow.pricepernight l.
Proof.
  intros Hc.
  pose proof Hc as (p & l & s & e & Hp & Hl & Hs & He & Hse & Hnow & Ha & Hpk & _)%create_booking_Ok.
  rewrite (create_booking_save _ _ _ _ _ p l s e) in Hc by done.
  apply save_Ok_validated in Hc as (Hf & Hprice & _). simpl in Hprice.
  exists p, l, s, e. repeat split; try done. nia.
Qed.

Lemma create_booking_admitted_checks_witness :
  ∃ l, properties st_booked !! 1 = Some l
       ∧ Listing.is_available 1 16 19 st_booked = true
       ∧ 0 < ListingRow.pricepernight l.
Proof.
  destruct (create_booking_admitted_checks (fv := example_validation)
              (BookingData.mk (Some 1) (Some 99) (Some 16) (Some 19) None) 4 8 (day 5)
              st_booked
              (mkStore (properties st_booked)
                 (<[8 := BookingRow.mk 1 4 16 19 30000 pending (day 5)]>
                    (bookings st_booked))
                 (reviews st_booked))
              (BookingRow.mk 1 4 16 19 30000 pending (day 5)))
    as (p & l & s & e & Hp & Hl & Hs & He & _ & _ & Ha & _ & _ & Hprice).
  - vm_compute. reflexivity.
  - injection Hp as <-. injection Hs as <-. injection He as <-. by exists l.
Defined.

(** X2: a successful [create_booking] adds one row under a key that was
    free and changes nothing else: every other booking, the properties
    and the reviews are as before; the row records the requester, not a
    user named in the payload, and is pending unless the payload asks
    for another status. *)
Theorem create_booking_adds_one_row {fv : FieldValidation} (data : BookingData.t)
    (request_user new_pk now : Z) (st st' : Store) (b : BookingRow.t) :
  create_booking data request_user new_pk now st = (st', Ok b) →
  bookings st !! new_pk = None
  ∧ bookings st' !! new_pk = Some b
  ∧ (∀ k, k ≠ new_pk → bookings st' !! k = bookings st !! k)
  ∧ properties st' = properties st ∧ reviews st' = reviews st
  ∧ BookingRow.user b = request_user
  ∧ BookingRow.status b = default pending (BookingData.status data)
  ∧ BookingRow.created_at b = now.
Proof.
  intros Hc. pose proof (create_booking_store _ _ _ _ _ _ _ Hc)
    as (Hfree & Hb & Hother & Hprops & Hreviews).
  apply create_booking_Ok in Hc
    as (p & l & s & e & _ & _ & _ & _ & _ & _ & _ & _ & -> & _).
  done.
Qed.

Lemma create_booking_adds_one_row_witness :
  ∃ st' b,
    create_booking (fv := example_validation)
      (BookingData.mk (Some 1) (Some 99) (Some 16) (Some 19) None) 4 8 (day 5) st_booked
    = (st', Ok b)
    ∧ BookingRow.user b = 4 ∧ BookingRow.status b = pending
    ∧ bookings st' !! 7 = bookings st_booked !! 7.
Proof.
  eexists _, _. split; [vm_compute; reflexivity|].
  match goal with
  | |- BookingRow.user ?b = _ ∧ _ ∧ bookings ?st' !! _ = _ =>
      destruct (create_booking_adds_one_row (fv := example_validation)
                  (BookingData.mk (Some 1) (Some 99) (Some 16) (Some 19) None)
                  4 8 (day 5) st_booked st' b)
        as (_ & _ & Hother & _ & _ & Hu & Hs & _)
  end.
  - vm_compute. reflexivity.
  - split; [exact Hu|]. split; [exact Hs|]. apply Hother. discriminate.
Defined.

(** What [serializer.save(user=request.user)] leaves in the store. *)
Lemma serializer_save_store {fv : FieldValidation} (validated_data : BookingData.t)
    (request_user new_pk now : Z) (st st' : Store) (x : result BookingRow.t) :
  BookingViewSet.serializer_save validated_data request_user new_pk now st = (st', x) →
  match x with
  | Ok b =>
      bookings st !! new_pk = None
      ∧ st' = mkStore (properties st) (<[new_pk := b]> (bookings st)) (reviews st)
  | Raise _ => st' = st
  end.
Proof.
  unfold BookingViewSet.serializer_save, BookingSerializer.create,
    BookingSerializer.build. simpl.
  destruct (BookingData.start_date validated_data) as [s|];
    [|run; intros [= <- <-]; done].
  destruct (BookingData.end_date validated_data) as [e|];
    [|run; intros [= <- <-]; done].
  destruct (BookingData.property validated_data) as [p|];
    [|run; intros [= <- <-]; done].
  unfold bind at 1 2. rewrite calculate_total_price_run. simpl.
  destruct (properties st !! p) as [l|]; [|intros [= <- <-]; done]. run.
  destruct x as [b|x]; intros Hsave.
  - apply save_Ok in Hsave as (_ & _ & _ & Hpk & _ & ->). split; [by apply Hpk|done].
  - by apply save_Raise in Hsave.
Qed.

(** X3: a refusal writes nothing, and one failure leaves a booking
    behind.  When [create_booking], [update_booking], [submit_review]
    or [update_review] raises, the store is as it was.
    [perform_create] raises either with the store as it was, or
    because queueing the confirmation e-mail raised after the save,
    and then the new booking is stored all the same. *)
Theorem raising_request_store {fv : FieldValidation} (now : Z) (st st' : Store)
    (x : Exception) :
  (∀ data request_user new_pk,
     create_booking data request_user new_pk now st = (st', Raise x) → st' = st)
  ∧ (∀ pk data, update_booking pk data now st = (st', Raise x) → st' = st)
  ∧ (∀ data author new_pk,
       submit_review data author new_pk now st = (st', Raise x) → st' = st)
  ∧ (∀ pk data author,
       update_review pk data author now st = (st', Raise x) → st' = st)
  ∧ (∀ validated_data request_user new_pk queued,
       BookingViewSet.perform_create validated_data request_user new_pk now queued st
       = (st', Raise x) →
       st' = st
       ∨ queued = Raise x
         ∧ ∃ b, BookingViewSet.serializer_save validated_data request_user new_pk now st
                = (st', Ok b)
                ∧ bookings st !! new_pk = None
                ∧ bookings st' !! new_pk = Some b).
Proof.
  split; [|split; [|split; [|split]]].
  - intros data u pk. apply create_booking_Raise.
  - intros pk data. apply update_booking_Raise.
  - intros data a pk. apply submit_review_Raise.
  - intros pk data a. apply update_review_Raise.
  - intros validated_data u pk queued.
    unfold BookingViewSet.perform_create, bind, BookingViewSet.delay.
    destruct (BookingViewSet.serializer_save validated_data u pk now st)
      as [st1 [b|e]] eqn:Hsave.
    + intros [= <- ->]. right. split; [done|]. exists b.
      apply serializer_save_store in Hsave as Hst. destruct Hst as [Hpk ->].
      repeat split; try done. apply lookup_insert_eq.
    + intros [= <- _]. left. by apply serializer_save_store in Hsave.
Qed.

Lemma raising_request_store_witness :
  (create_booking (fv := example_validation)
     (BookingData.mk (Some 1) None (Some 12) (Some 20) None) 4 8 (day 5) st_booked).1
  = st_booked
  ∧ is_Some
      (bookings
         (BookingViewSet.perform_create (fv := example_validation)
            (BookingData.mk (Some 1) None (Some 16) (Some 19) None) 4 8 (day 5)
            (Raise TypeError) st_booked).1
       !! 8).
Proof.
  split.
  - apply (proj1 (raising_request_store (fv := example_validation) (day 5)
                    st_booked _ (ValidationError [PropertyUnavailable]))
             (BookingData.mk (Some 1) None (Some 12) (Some 20) None) 4 8).
    vm_compute. reflexivity.
  - destruct (proj2 (proj2 (proj2 (proj2
                (raising_request_store (fv := example_validation) (day 5) st_booked
                   (BookingViewSet.perform_create (fv := example_validation)
                      (BookingData.mk (Some 1) None (Some 16) (Some 19) None) 4 8
                      (day 5) (Raise TypeError) st_booked).1
                   TypeError))))
                (BookingData.mk (Some 1) None (Some 16) (Some 19) None) 4 8
                (Raise TypeError))
      as [Hsame | (_ & b & _ & _ & Hb)].
    + vm_compute. reflexivity.
    + vm_compute in Hsame. discriminate Hsame.
    + rewrite Hb. by eexists.
Defined.

(** ** Bookings: invariants *)

Lemma overlaps_inclusive_false (a b : DateRange) :
  overlaps_inclusive a b = false ↔ apart a b.
Proof.
  unfold overlaps_inclusive, apart.
  rewrite andb_false_iff, !bool_decide_eq_false. lia.
Qed.

Lemma no_shared_date_write (st : Store) (pk : Z) (b : BookingRow.t) :
  no_shared_date st →
  Listing.is_available (BookingRow.property b)
    (BookingRow.start_date b) (BookingRow.end_date b) st = true →
  no_shared_date (mkStore (properties st) (<[pk := b]> (bookings st)) (reviews st)).
Proof.
  intros Hinv Ha.
  apply (is_available_true _ (range b)) in Ha.
  intros i j a c Hi Hj Hij Hp Haa Hac. simpl in Hi, Hj.
  destruct (decide (i = pk)) as [->|Hipk], (decide (j = pk)) as [->|Hjpk]; try done.
  - rewrite lookup_insert_eq in Hi. rewrite lookup_insert_ne in Hj by done.
    injection Hi as <-.
    specialize (Ha j c Hj (eq_sym Hp) Hac). apply overlaps_inclusive_false in Ha.
    unfold apart in *. lia.
  - rewrite lookup_insert_eq in Hj. rewrite lookup_insert_ne in Hi by done.
    injection Hj as <-.
    specialize (Ha i a Hi Hp Haa). by apply overlaps_inclusive_false in Ha.
  - rewrite lookup_insert_ne in Hi, Hj by done. by apply (Hinv i j).
Qed.

Lemma no_shared_date_perform {fv : FieldValidation} (op : Operation) (now : Z)
    (st : Store) :
  no_shared_date st → no_shared_date (perform op now st).
Proof.
  intros Hinv. destruct op as [data u pk|pk data|pk|data a pk|pk data a]; simpl.
  - destruct (create_booking data u pk now st) as [st' [b|x]] eqn:Hc; simpl.
    + apply create_booking_Ok in Hc as (p & l & s & e & _ & _ & _ & _ & _ & _ & Ha & _ & -> & ->).
      by apply no_shared_date_write.
    + by apply create_booking_Raise in Hc as ->.
  - destruct (update_booking pk data now st) as [st' [b|x]] eqn:Hu; simpl.
    + apply update_booking_Ok in Hu as (b0 & l & s & e & _ & _ & _ & _ & _ & _ & Ha & -> & ->).
      by apply no_shared_date_write.
    + by apply update_booking_Raise in Hu as ->.
  - destruct (cancel_booking pk now st) as [st' x] eqn:Hc; simpl.
    apply cancel_booking_store in Hc as [->|(b & _ & ->)]; [done|].
    intros i j a c Hi Hj Hij Hp Haa Hac. simpl in Hi, Hj.
    destruct (decide (i = pk)) as [->|Hipk], (decide (j = pk)) as [->|Hjpk]; try done.
    + rewrite lookup_insert_eq in Hi. injection Hi as <-. destruct Haa; done.
    + rewrite lookup_insert_eq in Hj. injection Hj as <-. destruct Hac; done.
    + rewrite lookup_insert_ne in Hi, Hj by done. by apply (Hinv i j).
  - destruct (submit_review data a pk now st) as [st' [r|x]] eqn:Hs; simpl.
    + apply submit_review_Ok in Hs as (p & _ & _ & _ & _ & _ & _ & _ & ->). done.
    + by apply submit_review_Raise in Hs as ->.
  - destruct (update_review pk data a now st) as [st' x] eqn:Hu; simpl.
    apply update_review_store in Hu as [->|(r & r' & _ & _ & _ & _ & ->)]; done.
Qed.

(** X4: the availability check of the code keeps more than
    non-overlapping stays: in a store where no two distinct active
    bookings of a property have a date in common, end dates included, a
    successful [create_booking] or [update_booking], and any sequence of
    operations, leads to such a store; one booking ends strictly before
    the other starts. *)
Theorem no_shared_date_invariant {fv : FieldValidation} (st : Store) :
  no_shared_date st →
  (∀ data request_user new_pk now,
     no_shared_date (create_booking data request_user new_pk now st).1)
  ∧ (∀ pk data now, no_shared_date (update_booking pk data now st).1)
  ∧ (∀ ops, no_shared_date (run_ops ops st)).
Proof.
  intros Hinv. repeat split.
  - intros data u pk now.
    apply (no_shared_date_perform (CreateBooking data u pk) now st Hinv).
  - intros pk data now.
    apply (no_shared_date_perform (UpdateBooking pk data) now st Hinv).
  - intros ops. revert st Hinv. unfold run_ops.
    induction ops as [|[now op] ops IH]; intros st Hinv; simpl; [done|].
    apply IH. by apply no_shared_date_perform.
Qed.

Lemma no_shared_date_invariant_witness :
  no_shared_date
    (create_booking (fv := example_validation)
       (BookingData.mk (Some 1) None (Some 16) (Some 19) None) 4 8 (day 5) st_booked).1.
Proof.
  apply (proj1 (no_shared_date_invariant (fv := example_validation) st_booked
           ltac:(intros i j a b Hi Hj Hij;
                 unfold st_booked in Hi, Hj; simpl in Hi, Hj;
                 apply lookup_singleton_Some in Hi as [<- _];
                 apply lookup_singleton_Some in Hj as [<- _]; done))).
Defined.

Lemma constraints_hold_perform {fv : FieldValidation} (op : Operation) (now : Z)
    (st : Store) :
  constraints_hold st → constraints_hold (perform op now st).
Proof.
  intros Hinv. destruct op as [data u pk|pk data|pk|data a pk|pk data a]; simpl.
  - destruct (create_booking data u pk now st) as [st' [b|x]] eqn:Hc; simpl.
    + pose proof (create_booking_Ok_validated _ _ _ _ _ _ _ Hc)
        as (p & l & s & e & Hp & Hl & Hs & He & Hse & _ & _ & _ & _ & Hprice).
      apply create_booking_Ok in Hc
        as (p' & l' & s' & e' & Hp' & Hl' & Hs' & He' & _ & _ & _ & _ & -> & ->).
      rewrite Hp in Hp'. injection Hp' as <-. rewrite Hl in Hl'. injection Hl' as <-.
      rewrite Hs in Hs'. injection Hs' as <-. rewrite He in He'. injection He' as <-.
      intros k b Hk. simpl in Hk.
      destruct (decide (k = pk)) as [->|Hne].
      * rewrite lookup_insert_eq in Hk. injection Hk as <-. simpl. split; [done|nia].
      * rewrite lookup_insert_ne in Hk by done. by apply (Hinv k).
    + by apply create_booking_Raise in Hc as ->.
  - destruct (update_booking pk data now st) as [st' [b'|x]] eqn:Hu; simpl.
    + unfold update_booking, BookingViewSet.get_object in Hu.
      unfold bind at 1 2 in Hu. simpl in Hu.
      destruct (bookings st !! pk) as [b|] eqn:Hb; [|done]. simpl in Hu.
      unfold bind at 1 in Hu. rewrite validate_run in Hu.
      assert (BookingSerializer.update pk b data now st = (st', Ok b')) as Hupd.
      { destruct (BookingData.start_date data) as [s|]; [|done].
        destruct (BookingData.end_date data) as [e|]; [|done].
        do 2 (case_bool_decide; [done|]).
        destruct (BookingData.property data) as [p|]; [|done].
        by destruct (Listing.is_available p s e st). }
      clear Hu. unfold BookingSerializer.update in Hupd. unfold bind at 1 in Hupd.
      assert (∀ self, Booking.save pk self false now st = (st', Ok b') →
                      constraints_hold st') as Hsave.
      { intros self Hsave.
        pose proof Hsave as (_ & Hprice & _)%save_Ok_validated.
        apply save_Ok in Hsave as (Hse & _ & _ & _ & -> & ->).
        intros k c Hk. simpl in Hk.
        destruct (decide (k = pk)) as [->|Hne].
        - rewrite lookup_insert_eq in Hk. injection Hk as <-. done.
        - rewrite lookup_insert_ne in Hk by done. by apply (Hinv k). }
      case_bool_decide.
      * unfold bind at 1 in Hupd. rewrite calculate_total_price_run in Hupd.
        simpl in Hupd. destruct (properties st !! _); [|done]. run. eauto.
      * run. eauto.
    + by apply update_booking_Raise in Hu as ->.
  - destruct (cancel_booking pk now st) as [st' x] eqn:Hc; simpl.
    apply cancel_booking_store in Hc as [->|(b & Hb & ->)]; [done|].
    intros k c Hk. simpl in Hk.
    destruct (decide (k = pk)) as [->|Hne].
    + rewrite lookup_insert_eq in Hk. injection Hk as <-. simpl. by apply (Hinv pk).
    + rewrite lookup_insert_ne in Hk by done. by apply (Hinv k).
  - destruct (submit_review data a pk now st) as [st' [r|x]] eqn:Hs; simpl.
    + apply submit_review_Ok in Hs as (p & _ & _ & _ & _ & _ & _ & _ & ->). done.
    + by apply submit_review_Raise in Hs as ->.
  - destruct (update_review pk data a now st) as [st' x] eqn:Hu; simpl.
    apply update_review_store in Hu as [->|(r & r' & _ & _ & _ & _ & ->)]; done.
Qed.

(** X5: the constraints declared on a booking, end date after start
    date and a positive total price, hold of every stored booking after
    any sequence of operations if they held before; every stored
    booking then lasts at least one night. *)
Theorem constraints_hold_invariant {fv : FieldValidation}
    (ops : list (Z * Operation)) (st : Store) :
  constraints_hold st →
  constraints_hold (run_ops ops st)
  ∧ ∀ k b, bookings (run_ops ops st) !! k = Some b → 1 ≤ Booking.get_number_of_nights b.
Proof.
  intros Hinv.
  assert (constraints_hold (run_ops ops st)) as Hall.
  { revert st Hinv. unfold run_ops.
    induction ops as [|[now op] ops IH]; intros st Hinv; simpl; [done|].
    apply IH. by apply constraints_hold_perform. }
  split; [done|]. intros k b Hk. destruct (Hall k b Hk) as [Hse _].
  unfold Booking.get_number_of_nights. lia.
Qed.

Lemma constraints_hold_invariant_witness :
  constraints_hold
    (run_ops (fv := example_validation)
       [ (day 5, CreateBooking (BookingData.mk (Some 1) None (Some 10) (Some 15) None) 3 7);
         (day 6, UpdateBooking 7 (BookingData.mk (Some 1) None (Some 20) (Some 25) None)) ]
       st_empty).
Proof.
  apply (constraints_hold_invariant (fv := example_validation)).
  intros k b Hk. simpl in Hk. rewrite lookup_empty in Hk. done.
Defined.

(** ** Availability and the bookings written *)

(** X6: a range inside an available range is available: when
    [is_available] accepts the dates [s] to [e], it accepts any dates
    from [s] or later to [e] or earlier. *)
Theorem is_available_subrange (p s e s' e' : Z) (st : Store) :
  Listing.is_available p s e st = true → s ≤ s' → e' ≤ e →
  Listing.is_available p s' e' st = true.
Proof.
  intros Ha Hs He.
  apply (is_available_true p (mkRange s e)) in Ha.
  apply (is_available_true p (mkRange s' e')).
  intros k b Hk Hp Hact. specialize (Ha k b Hk Hp Hact).
  apply overlaps_inclusive_false. apply overlaps_inclusive_false in Ha.
  unfold apart in *. simpl in *. lia.
Qed.

Lemma is_available_subrange_witness :
  Listing.is_available 1 17 18 st_booked = true.
Proof.
  apply (is_available_subrange 1 16 30 17 18 st_booked); [reflexivity|lia|lia].
Defined.

(** X7: a booking that [create_booking] has stored as pending or
    confirmed is found again under its key, makes every range that
    shares a date with it unavailable for its property, and leaves the
    availability of every other property as it was. *)
Theorem created_booking_blocks_its_dates {fv : FieldValidation} (data : BookingData.t)
    (request_user new_pk now : Z) (st st' : Store) (b : BookingRow.t) :
  create_booking data request_user new_pk now st = (st', Ok b) → active b →
  BookingViewSet.get_object new_pk st' = (st', Ok b)
  ∧ (∀ s e, s ≤ BookingRow.end_date b → BookingRow.start_date b ≤ e →
            Listing.is_available (BookingRow.property b) s e st' = false)
  ∧ (∀ p s e, p ≠ BookingRow.property b →
              Listing.is_available p s e st' = Listing.is_available p s e st).
Proof.
  intros Hc Hact.
  apply create_booking_store in Hc as (Hfree & Hb & Hother & _).
  repeat split.
  - unfold BookingViewSet.get_object. run. by rewrite Hb.
  - intros s e Hs He. apply (is_available_false _ (mkRange s e)).
    exists new_pk, b. repeat split; try done.
    unfold overlaps_inclusive. simpl.
    rewrite andb_true_iff, !bool_decide_eq_true. lia.
  - intros p s e Hp. apply eq_true_iff_eq.
    rewrite (is_available_true p (mkRange s e) st'),
            (is_available_true p (mkRange s e) st).
    split; intros Hfr k c Hk Hpc Hactc.
    + destruct (decide (k = new_pk)) as [->|Hne]; [by rewrite Hfree in Hk|].
      apply (Hfr k c); try done. by rewrite Hother.
    + destruct (decide (k = new_pk)) as [->|Hne].
      * rewrite Hb in Hk. injection Hk as <-. done.
      * apply (Hfr k c); try done. by rewrite <- Hother.
Qed.

Lemma created_booking_blocks_its_dates_witness :
  ∃ st',
    (create_booking (fv := example_validation)
       (BookingData.mk (Some 1) None (Some 16) (Some 19) None) 4 8 (day 5) st_booked).1
    = st'
    ∧ Listing.is_available 1 19 22 st' = false.
Proof.
  eexists. split; [reflexivity|].
  apply (proj1 (proj2 (created_booking_blocks_its_dates (fv := example_validation)
                         (BookingData.mk (Some 1) None (Some 16) (Some 19) None)
                         4 8 (day 5) st_booked _
                         (BookingRow.mk 1 4 16 19 30000 pending (day 5))
                         ltac:(vm_compute; reflexivity) (or_introl eq_refl)))
           19 22); simpl; lia.
Defined.

(** ** Cancellation window *)

Lemma date_of_mono (now now' : Z) : now ≤ now' → date_of now ≤ date_of now'.
Proof. intros H. unfold date_of. apply Z.div_le_mono; lia. Qed.

(** X8: the cancellation window only closes: a booking that
    [can_cancel] accepts at some time was accepted at every earlier
    time, it is pending or confirmed and starts after that day; and a
    booking that [create_booking] admits for today is refused by
    [can_cancel] then and at any later time. *)
Theorem can_cancel_window {fv : FieldValidation} (b : BookingRow.t) (now now' : Z) :
  now ≤ now' →
  (Booking.can_cancel b now' = true →
   Booking.can_cancel b now = true ∧ active b ∧ date_of now' < BookingRow.start_date b)
  ∧ (∀ data request_user new_pk st st',
       create_booking data request_user new_pk now st = (st', Ok b) →
       BookingData.start_date data = Some (date_of now) →
       Booking.can_cancel b now' = false).
Proof.
  intros Hnow. pose proof (date_of_mono now now' Hnow) as Hd. split.
  - unfold Booking.can_cancel.
    rewrite !andb_true_iff, active_status, !bool_decide_eq_true.
    intros [Hact Hs]. repeat split; try done; lia.
  - intros data u pk st st' Hc Hs.
    apply create_booking_Ok in Hc as (p & l & s & e & _ & _ & Hs' & _ & _ & _ & _ & _ & -> & _).
    rewrite Hs in Hs'. injection Hs' as <-.
    unfold Booking.can_cancel. simpl.
    apply andb_false_iff. right. apply bool_decide_eq_false. lia.
Qed.

Lemma can_cancel_window_witness :
  Booking.can_cancel (BookingRow.mk 1 3 10 15 50000 pending 0) (day 5) = true
  ∧ Booking.can_cancel (BookingRow.mk 1 4 5 8 30000 pending (day 5)) (day 5) = false.
Proof.
  split.
  - apply (proj1 (can_cancel_window (fv := example_validation)
                    (BookingRow.mk 1 3 10 15 50000 pending 0) (day 5) (day 9)
                    ltac:(vm_compute; discriminate))).
    reflexivity.
  - apply (proj2 (can_cancel_window (fv := example_validation)
                    (BookingRow.mk 1 4 5 8 30000 pending (day 5)) (day 5) (day 5)
                    ltac:(lia))
             (BookingData.mk (Some 1) None (Some 5) (Some 8) None) 4 8 st_empty
             (mkStore (properties st_empty)
                (<[8 := BookingRow.mk 1 4 5 8 30000 pending (day 5)]> (bookings st_empty))
                (reviews st_empty))).
    + vm_compute. reflexivity.
    + reflexivity.
Defined.

(** ** Bookings: when an update is admitted *)

(** Once the booking is found and [validate] has passed, [update_booking]
    is the save of the rewritten row. *)
Lemma update_booking_save {fv : FieldValidation} (pk : Z) (data : BookingData.t)
    (now : Z) (st : Store) (b : BookingRow.t) (l : ListingRow.t) (s e : Z) :
  bookings st !! pk = Some b →
  properties st !! BookingRow.property b = Some l →
  BookingData.start_date data = Some s → BookingData.end_date data = Some e →
  s < e → date_of now ≤ s →
  (∀ p, BookingData.property data = Some p → Listing.is_available p s e st = true) →
  update_booking pk data now st
  = Booking.save pk
      (BookingRow.mk (BookingRow.property b) (BookingRow.user b) s e
         ((e - s) * ListingRow.pricepernight l)
         (default (BookingRow.status b) (BookingData.status data))
         (BookingRow.created_at b)) false now st.
Proof.
  intros Hb Hl Hs He Hse Hnow Hsup.
  unfold update_booking, BookingViewSet.get_object.
  unfold bind at 1 2. simpl. rewrite Hb. simpl.
  unfold bind at 1. rewrite validate_run, Hs, He.
  rewrite !bool_decide_eq_false_2 by lia.
  assert (BookingSerializer.update pk b data now st
          = Booking.save pk
              (BookingRow.mk (BookingRow.property b) (BookingRow.user b) s e
                 ((e - s) * ListingRow.pricepernight l)
                 (default (BookingRow.status b) (BookingData.status data))
                 (BookingRow.created_at b)) false now st) as Hupd.
  { unfold BookingSerializer.update, BookingSerializer.setattrs,
      BookingSerializer.pop_user, BookingSerializer.pop_property. simpl.
    rewrite Hs, He. simpl. unfold bind at 1 2.
    rewrite calculate_total_price_run. simpl. rewrite Hl. done. }
  destruct (BookingData.property data) as [p|]; [|done].
  by rewrite (Hsup p eq_refl).
Qed.

(** An update that names a property taken on the new dates is refused
    by [validate], whatever the property of the booking is. *)
Lemma update_booking_refused_supplied {fv : FieldValidation} (pk : Z)
    (data : BookingData.t) (now : Z) (st : Store) (b : BookingRow.t) (p s e : Z) :
  bookings st !! pk = Some b →
  BookingData.property data = Some p →
  BookingData.start_date data = Some s → BookingData.end_date data = Some e →
  s < e → date_of now ≤ s →
  Listing.is_available p s e st = false →
  update_booking pk data now st = (st, Raise (ValidationError [PropertyUnavailable])).
Proof.
  intros Hb Hp Hs He Hse Hnow Ha.
  unfold update_booking, BookingViewSet.get_object.
  unfold bind at 1 2. simpl. rewrite Hb. simpl.
  unfold bind at 1. rewrite validate_run, Hs, He, Hp, Ha.
  by rewrite !bool_decide_eq_false_2 by lia.
Qed.

(** X9: what an update that [update_booking] carries out has passed:
    the booking exists, the request carries both dates with the end
    after the start and the start not before today, a property named
    in the request is free for the new dates, the property of the
    booking is free for them too, the stored row of the booking itself
    counting as taken while it is pending or confirmed, the column
    validators accept the new row and the nightly rate is positive. *)
Theorem update_booking_admitted_checks {fv : FieldValidation} (pk : Z)
    (data : BookingData.t) (now : Z) (st st' : Store) (b' : BookingRow.t) :
  update_booking pk data now st = (st', Ok b') →
  ∃ b l s e,
    bookings st !! pk = Some b
    ∧ properties st !! BookingRow.property b = Some l
    ∧ BookingData.start_date data = Some s ∧ BookingData.end_date data = Some e
    ∧ s < e ∧ date_of now ≤ s
    ∧ (∀ p, BookingData.property data = Some p → Listing.is_available p s e st = true)
    ∧ Listing.is_available (BookingRow.property b) s e st = true
    ∧ booking_clean_fields
        (BookingRow.mk (BookingRow.property b) (BookingRow.user b) s e
           ((e - s) * ListingRow.pricepernight l)
           (default (BookingRow.status b) (BookingData.status data))
           (BookingRow.created_at b)) = true
    ∧ 0 < ListingRow.pricepernight l.
Proof.
  intros Hu.
  pose proof Hu as (b & l & s & e & Hb & Hl & Hs & He & Hse & Hnow & Ha & _)%update_booking_Ok.
  assert (∀ p, BookingData.property data = Some p →
               Listing.is_available p s e st = true) as Hsup.
  { intros p Hp. destruct (Listing.is_available p s e st) eqn:Hav; [done|].
    rewrite (update_booking_refused_supplied pk data now st b p s e) in Hu by done.
    done. }
  rewrite (update_booking_save pk data now st b l s e) in Hu by done.
  apply save_Ok_validated in Hu as (Hf & Hprice & _). simpl in Hprice.
  exists b, l, s, e. repeat split; try done. nia.
Qed.

Lemma update_booking_admitted_checks_witness :
  ∃ b, bookings st_booked !! 7 = Some b
       ∧ Listing.is_available 2 20 24 st_booked = true
       ∧ Listing.is_available (BookingRow.property b) 20 24 st_booked = true.
Proof.
  destruct (update_booking_admitted_checks (fv := example_validation) 7
              (BookingData.mk (Some 2) (Some 9) (Some 20) (Some 24) (Some confirmed))
              (day 5) st_booked
              (mkStore (properties st_booked)
                 (<[7 := BookingRow.mk 1 3 20 24 40000 confirmed 0]> (bookings st_booked))
                 (reviews st_booked))
              (BookingRow.mk 1 3 20 24 40000 confirmed 0))
    as (b & l & s & e & Hb & _ & Hs & He & _ & _ & Hsup & Ha & _).
  - vm_compute. reflexivity.
  - injection Hs as <-. injection He as <-. exists b. split; [done|]. split; [|done].
    by apply Hsup.
Defined.

(** X20: no request to the booking view set gets as far as
    [BookingSerializer.validate]: the class declares the field [id]
    and [Meta.fields] does not list it, so building the fields raises
    AssertionError in [is_valid]; a POST always ends in that exception,
    a PUT in that exception or, for a booking that does not exist, in
    a 404, and neither writes anything. *)
Theorem booking_requests_raise_assertion_error {fv : FieldValidation}
    (data : BookingData.t) (now : Z) (st : Store) :
  BookingSerializer.get_field_names = Raise AssertionError
  ∧ ¬ "id" ∈ BookingSerializer.Meta_fields
  ∧ (∀ request_user new_pk queued,
       BookingViewSet.create data request_user new_pk now queued st
       = (st, Raise AssertionError))
  ∧ (∀ pk,
       BookingViewSet.update pk data now st
       = (st, Raise (match bookings st !! pk with
                     | Some _ => AssertionError
                     | None => Http404
                     end))).
Proof.
  split; [reflexivity|]. split.
  - unfold BookingSerializer.Meta_fields. rewrite !elem_of_cons, elem_of_nil.
    intros H. repeat (destruct H as [H|H]; [discriminate H|]). done.
  - split.
    + intros u pk queued. reflexivity.
    + intros pk. unfold BookingViewSet.update, BookingViewSet.get_object. run.
      by destruct (bookings st !! pk).
Qed.

(** ** Confirmed bookings of a property *)

(** X10: [get_bookings_count] counts the confirmed bookings of a
    property: a successful [create_booking] raises the count of its
    property by one when the booking is stored as confirmed, leaves it
    as it was when the booking is stored with another status, and leaves
    the count of every other property as it was. *)
Theorem bookings_count_after_create {fv : FieldValidation} (data : BookingData.t)
    (request_user new_pk now : Z) (st st' : Store) (b : BookingRow.t) :
  create_booking data request_user new_pk now st = (st', Ok b) →
  ListingDetailSerializer.get_bookings_count (BookingRow.property b) st'
  = (if decide (BookingRow.status b = confirmed)
     then S (ListingDetailSerializer.get_bookings_count (BookingRow.property b) st)
     else ListingDetailSerializer.get_bookings_count (BookingRow.property b) st)
  ∧ ∀ p, p ≠ BookingRow.property b →
         ListingDetailSerializer.get_bookings_count p st'
         = ListingDetailSerializer.get_bookings_count p st.
Proof.
  intros (p0 & l & s & e & _ & _ & _ & _ & _ & _ & _ & Hpk & -> & ->)%create_booking_Ok.
  unfold ListingDetailSerializer.get_bookings_count. simpl. split.
  - destruct (decide (default pending (BookingData.status data) = confirmed)) as [Hc|Hc].
    + rewrite map_filter_insert_True by done.
      apply map_size_insert_None. apply map_lookup_filter_None. by left.
    + rewrite map_filter_insert_not'; [done| |].
      * simpl. intros [_ ?]. done.
      * intros y Hy. by rewrite Hpk in Hy.
  - intros p Hp. rewrite map_filter_insert_not'; [done| |].
    + simpl. intros [? _]. done.
    + intros y Hy. by rewrite Hpk in Hy.
Qed.

Lemma bookings_count_after_create_witness :
  ListingDetailSerializer.get_bookings_count 1
    (create_booking (fv := example_validation)
       (BookingData.mk (Some 1) None (Some 16) (Some 19) (Some confirmed)) 4 8 (day 5)
       st_booked).1
  = 1%nat.
Proof.
  pose proof (proj1 (bookings_count_after_create (fv := example_validation)
                       (BookingData.mk (Some 1) None (Some 16) (Some 19) (Some confirmed))
                       4 8 (day 5) st_booked _
                       (BookingRow.mk 1 4 16 19 30000 confirmed (day 5))
                       ltac:(vm_compute; reflexivity))) as H.
  simpl in H. exact H.
Defined.

(** ** Reviews: what an admitted review records *)

(** A [submit_review] that returns has passed the validation of the
    serializer and is then the save of the row built from the
    request. *)
Lemma submit_review_save (data : ReviewData.t) (author new_pk now : Z) (st st' : Store)
    (r : ReviewRow.t) (p : Z) :
  submit_review data author new_pk now st = (st', Ok r) →
  ReviewData.property data = Some p →
  Review.save new_pk
    (ReviewRow.mk p (default author (ReviewData.user data))
       (ReviewData.rating data) (ReviewData.comment data) 0) true now st
  = (st', Ok r).
Proof.
  intros Hs Hp. unfold submit_review, bind at 1 in Hs.
  destruct (ReviewSerializer.run_validation data author None now st)
    as [st1 [d|e]] eqn:Hv; [|done].
  apply run_validation_Ok in Hv as (-> & -> & _).
  unfold ReviewSerializer.create in Hs. by rewrite Hp in Hs.
Qed.

(** X11: a review that [submit_review] stores is recorded under a new
    key, for the user named in the payload or else the requester; both
    the requester and the recorded user have a completed stay at the
    property, the rating is between 1 and 5 and the comment is not
    blank; no booking, no property and no other review is touched. *)
Theorem submit_review_records (data : ReviewData.t)
    (author new_pk now : Z) (st st' : Store) (r : ReviewRow.t) :
  submit_review data author new_pk now st = (st', Ok r) →
  ReviewRow.user r = default author (ReviewData.user data)
  ∧ Some (ReviewRow.property r) = ReviewData.property data
  ∧ completed_stay author (ReviewRow.property r) now st
  ∧ completed_stay (ReviewRow.user r) (ReviewRow.property r) now st
  ∧ 1 ≤ ReviewRow.rating r ≤ 5 ∧ ReviewRow.comment r ≠ ""
  ∧ ReviewRow.created_at r = now
  ∧ reviews st !! new_pk = None
  ∧ reviews st' !! new_pk = Some r
  ∧ (∀ k, k ≠ new_pk → reviews st' !! k = reviews st !! k)
  ∧ bookings st' = bookings st ∧ properties st' = properties st.
Proof.
  intros Hs.
  pose proof Hs as (p & Hp & Hf & Hc & Hn & _ & Hpk & _ & _)%submit_review_Ok.
  apply (submit_review_save _ _ _ _ _ _ _ p) in Hs; [|done].
  apply review_save_Ok in Hs as (Hcu & _ & _ & _ & -> & ->). simpl in *.
  apply field_errors_nil in Hf as [Hr Hm].
  repeat split; try done; try lia.
  - by apply exists_completed_bookings.
  - by apply exists_completed_bookings.
  - apply lookup_insert_eq.
  - intros k Hk. by rewrite lookup_insert_ne.
Qed.

Lemma submit_review_records_witness :
  ∃ st' r,
    submit_review (ReviewData.mk (Some 1) (Some 3) 4 "quiet street") 3 100 (day 16)
      st_stayed
    = (st', Ok r)
    ∧ ReviewRow.user r = 3 ∧ bookings st' = bookings st_stayed.
Proof.
  eexists _, _. split; [vm_compute; reflexivity|].
  match goal with
  | |- ReviewRow.user ?r = _ ∧ bookings ?st' = _ =>
      destruct (submit_review_records
                  (ReviewData.mk (Some 1) (Some 3) 4 "quiet street") 3 100 (day 16)
                  st_stayed st' r)
        as (Hu & _ & _ & _ & _ & _ & _ & _ & _ & _ & Hb & _)
  end.
  - vm_compute. reflexivity.
  - split; [exact Hu|exact Hb].
Defined.

(** ** Reviews: editing *)

(** What a successful [update_review] found: the review, a payload that
    passed the field checks, the uniqueness validator and the gate, and
    the save of the rewritten row. *)
Lemma update_review_Ok (pk : Z) (data : ReviewData.t) (author now : Z)
    (st st' : Store) (r' : ReviewRow.t) :
  update_review pk data author now st = (st', Ok r') →
  ∃ r p u,
    reviews st !! pk = Some r
    ∧ ReviewData.property data = Some p ∧ ReviewData.user data = Some u
    ∧ ReviewSerializer.field_errors data = []
    ∧ exists_ (completed_bookings author (Some p) now st) = true
    ∧ delete pk (reviews_of u (Some p) st) = ∅
    ∧ Review.save pk
        (ReviewRow.mk (ReviewRow.property r) (ReviewRow.user r)
           (ReviewData.rating data) (ReviewData.comment data) (ReviewRow.created_at r))
        false now st
      = (st', Ok r').
Proof.
  unfold update_review. unfold bind at 1. simpl.
  destruct (reviews st !! pk) as [r|] eqn:Hr; [|done].
  unfold bind.
  destruct (ReviewSerializer.run_validation data author (Some (pk, r)) now st)
    as [st1 [d|e]] eqn:Hv; [|done].
  apply run_validation_Ok in Hv as (-> & -> & p & u & Hp & Hu & Hf & Hq & Hc & _).
  intros Hsave. exists r, p, u. repeat split; try done.
  unfold ReviewSerializer.unique_together in Hq. rewrite Hu, Hp in Hq.
  by apply exists_false.
Qed.






(** ** Ratings and their aggregates *)

Lemma ratings_in_range_perform {fv : FieldValidation} (op : Operation) (now : Z)
    (st : Store) :
  ratings_in_range st → ratings_in_range (perform op now st).
Proof.
  intros Hinv. destruct op as [data u pk|pk data|pk|data a pk|pk data a]; simpl.
  - destruct (create_booking data u pk now st) as [st' [b|x]] eqn:Hc; simpl.
    + apply create_booking_store in Hc as (_ & _ & _ & _ & Hr).
      intros k r. rewrite Hr. apply Hinv.
    + by apply create_booking_Raise in Hc as ->.
  - destruct (update_booking pk data now st) as [st' [b|x]] eqn:Hu; simpl.
    + apply update_booking_Ok in Hu as (b0 & l & s & e & _ & _ & _ & _ & _ & _ & _ & _ & ->).
      done.
    + by apply update_booking_Raise in Hu as ->.
  - destruct (cancel_booking pk now st) as [st' x] eqn:Hc; simpl.
    apply cancel_booking_store in Hc as [->|(b & _ & ->)]; done.
  - destruct (submit_review data a pk now st) as [st' [r|x]] eqn:Hs; simpl.
    + apply submit_review_Ok in Hs as (p & _ & Hf & _ & _ & _ & _ & -> & ->).
      apply field_errors_nil in Hf as [Hr _].
      intros k r0 Hk. simpl in Hk. destruct (decide (k = pk)) as [->|Hne].
      * rewrite lookup_insert_eq in Hk. by injection Hk as <-.
      * rewrite lookup_insert_ne in Hk by done. by apply (Hinv k).
    + by apply submit_review_Raise in Hs as ->.
  - destruct (update_review pk data a now st) as [st' [r'|x]] eqn:Hu; simpl.
    + apply update_review_Ok in Hu as (r & p & u & Hr & _ & _ & Hf & _ & _ & Hu).
      apply review_save_Ok in Hu as (_ & _ & _ & _ & -> & ->).
      apply field_errors_nil in Hf as [Hrating _].
      intros k r0' Hk. simpl in Hk. destruct (decide (k = pk)) as [->|Hne].
      * rewrite lookup_insert_eq in Hk. by injection Hk as <-.
      * rewrite lookup_insert_ne in Hk by done. by apply (Hinv k).
    + by apply update_review_Raise in Hu as ->.
Qed.

Lemma ratings_of_property_in_range (p : Z) (st : Store) :
  ratings_in_range st →
  Forall (λ v, 1 ≤ v ≤ 5) (Listing.ratings (Listing.reviews_all p st)).
Proof.
  intros Hinv. unfold Listing.ratings. apply Forall_fmap, Forall_forall.
  intros [k r] Hkr. apply elem_of_map_to_list in Hkr.
  apply map_lookup_filter_Some in Hkr as [Hk _]. simpl. by apply (Hinv k).
Qed.

(** X14: ratings stay between 1 and 5: if every stored rating is, so is
    every stored rating after any sequence of operations, and the
    average that [get_average_rating] returns for a property is then
    between 1 and 5 as well. *)
Theorem ratings_stay_in_range {fv : FieldValidation} (st : Store) :
  ratings_in_range st →
  (∀ ops, ratings_in_range (run_ops ops st))
  ∧ (∀ p q, Listing.get_average_rating p st = Some q → Qle 1 q ∧ Qle q 5).
Proof.
  intros Hinv. split.
  - intros ops. revert st Hinv. unfold run_ops.
    induction ops as [|[now op] ops IH]; intros st Hinv; simpl; [done|].
    apply IH. by apply ratings_in_range_perform.
  - intros p q. unfold Listing.get_average_rating.
    destruct (exists_ (Listing.reviews_all p st)); [|done].
    pose proof (sum_bounds _ (ratings_of_property_in_range p st Hinv)) as Hb.
    destruct (Listing.ratings (Listing.reviews_all p st)) as [|v vs] eqn:Hl; [done|].
    unfold Listing.Avg. intros [= <-].
    apply (div_between _ _ 1 5); cbn [length foldr] in *; lia.
Qed.

Lemma ratings_stay_in_range_witness :
  ∃ q, Listing.get_average_rating 1 st_reviewed = Some q ∧ Qle 1 q ∧ Qle q 5.
Proof.
  eexists. split; [vm_compute; reflexivity|].
  apply (proj2 (ratings_stay_in_range (fv := example_validation) st_reviewed
           ltac:(intros k r Hk; unfold st_reviewed in Hk; simpl in Hk;
                 apply lookup_insert_Some in Hk as [[_ <-]|[_ Hk]];
                 [simpl; lia|];
                 apply lookup_singleton_Some in Hk as [_ <-]; simpl; lia)) 1).
  vm_compute. reflexivity.
Defined.

(** X15: admitting a review raises [get_total_reviews] of its property
    by one and adds its rating to the ratings that
    [get_average_rating] averages; the count and the average of every
    other property stay as they were. *)
Theorem review_counts_after_submit (data : ReviewData.t) (author new_pk now : Z)
    (st st' : Store) (r : ReviewRow.t) :
  submit_review data author new_pk now st = (st', Ok r) →
  Listing.get_total_reviews (ReviewRow.property r) st'
  = S (Listing.get_total_reviews (ReviewRow.property r) st)
  ∧ Listing.ratings (Listing.reviews_all (ReviewRow.property r) st')
    ≡ₚ ReviewRow.rating r
       :: Listing.ratings (Listing.reviews_all (ReviewRow.property r) st)
  ∧ ∀ p, p ≠ ReviewRow.property r →
         Listing.get_total_reviews p st' = Listing.get_total_reviews p st
         ∧ Listing.get_average_rating p st' = Listing.get_average_rating p st.
Proof.
  intros (p0 & _ & _ & _ & _ & _ & Hpk & -> & ->)%submit_review_Ok.
  unfold Listing.get_total_reviews, Listing.get_average_rating, Listing.reviews_all.
  simpl.
  assert (filter (λ kr : Z * ReviewRow.t, ReviewRow.property kr.2 = p0) (reviews st)
            !! new_pk = None) as Hnone
    by (apply map_lookup_filter_None; by left).
  repeat split.
  - rewrite map_filter_insert_True by done. by apply map_size_insert_None.
  - rewrite map_filter_insert_True by done. unfold Listing.ratings.
    by rewrite map_to_list_insert.
  - rewrite map_filter_insert_not'; [done|by simpl|].
    intros y Hy. by rewrite Hpk in Hy.
  - rewrite map_filter_insert_not'; [done|by simpl|].
    intros y Hy. by rewrite Hpk in Hy.
Qed.

Lemma review_counts_after_submit_witness :
  Listing.get_total_reviews 1
    (submit_review (ReviewData.mk (Some 1) (Some 3) 4 "quiet street") 3 100 (day 16)
       st_stayed).1
  = 1%nat.
Proof.
  apply (proj1 (review_counts_after_submit
                  (ReviewData.mk (Some 1) (Some 3) 4 "quiet street") 3 100 (day 16)
                  st_stayed _ (ReviewRow.mk 1 3 4 "quiet street" (day 16))
                  ltac:(vm_compute; reflexivity))).
Defined.

(** ** The seed command *)

(** One round of [create_bookings] either leaves store and list as they
    were or stores one new booking that starts after today. *)
Lemma create_bookings_round_cases {fv : FieldValidation} (now : Z)
    (bs : list (Z * BookingRow.t)) (d : Seed.BookingDraw) (st : Store) :
  Seed.booking_draw_in_bounds d →
  Seed.create_bookings_round now bs d st = (st, Ok bs)
  ∨ ∃ b, Seed.create_bookings_round now bs d st
         = (mkStore (properties st) (<[Seed.bd_pk d := b]> (bookings st)) (reviews st),
            Ok (bs ++ [(Seed.bd_pk d, b)]))
         ∧ bookings st !! Seed.bd_pk d = None
         ∧ date_of now < BookingRow.start_date b
         ∧ BookingRow.start_date b < BookingRow.end_date b
         ∧ Listing.is_available (BookingRow.property b)
             (BookingRow.start_date b) (BookingRow.end_date b) st = true.
Proof.
  intros [Hd Hn].
  unfold Seed.create_bookings_round, try_except, Seed.Booking_objects_create,
    bind, get, ret.
  simpl. destruct (Listing.is_available _ _ _ st) eqn:Ha; [|by left].
  destruct (Booking.save _ _ _ _ _) as [st' [b|x]] eqn:Hs.
  - apply save_Ok in Hs as (Hse & _ & _ & Hpk & -> & ->). simpl in *.
    right. eexists. split; [reflexivity|]. simpl.
    split; [by apply Hpk|]. split; [lia|]. split; [lia|done].
  - apply save_Raise in Hs as ->. by left.
Qed.

Lemma create_bookings_loop_spec {fv : FieldValidation} (now : Z)
    (draws : list Seed.BookingDraw) (bs : list (Z * BookingRow.t)) (st : Store) :
  Forall Seed.booking_draw_in_bounds draws →
  (∀ k b, (k, b) ∈ bs → bookings st !! k = Some b ∧ date_of now < BookingRow.end_date b) →
  ∃ st' bs',
    Seed.create_bookings_loop now bs draws st = (st', Ok bs')
    ∧ (∀ k b, (k, b) ∈ bs' →
              bookings st' !! k = Some b ∧ date_of now < BookingRow.end_date b)
    ∧ (∀ k b, bookings st !! k = Some b → bookings st' !! k = Some b)
    ∧ (no_shared_date st → no_shared_date st')
    ∧ properties st' = properties st ∧ reviews st' = reviews st.
Proof.
  intros Hdraws. revert bs st.
  induction Hdraws as [|d draws Hd _ IH]; intros bs st Hbs.
  - exists st, bs. simpl. unfold ret.
    split; [done|]. split; [exact Hbs|]. split; [done|]. split; done.
  - cbn [Seed.create_bookings_loop]. unfold bind.
    destruct (create_bookings_round_cases now bs d st Hd)
      as [-> | (b & -> & Hpk & Hfut & Hse & Ha)].
    + apply IH. done.
    + set (st1 := mkStore _ _ _).
      destruct (IH (bs ++ [(Seed.bd_pk d, b)]) st1)
        as (st' & bs' & Hrun & Hin & Hkeep & Hinv & Hp & Hr).
      { intros k c [Hkc | Hkc%list_elem_of_singleton]%elem_of_app.
        - destruct (Hbs k c Hkc) as [Hk Hf]. split; [|done].
          subst st1. simpl. rewrite lookup_insert_ne; [done|]. congruence.
        - injection Hkc as -> ->. split; [apply lookup_insert_eq|lia]. }
      exists st', bs'. split; [done|]. split; [exact Hin|]. split; [|split; [|done]].
      * intros k c Hk. apply Hkeep. subst st1. simpl.
        rewrite lookup_insert_ne; [done|]. congruence.
      * intros Hst. apply Hinv. by apply no_shared_date_write.
Qed.

(** X16: with draws as [random.randint] gives them, [create_bookings]
    always returns; every booking in the list it returns is in the
    store and ends after today, so that [past_bookings], computed from
    that list on the same day, is empty; no booking that was there is
    changed, and the bookings of the store keep having no date in
    common. *)
Theorem seed_bookings_all_future {fv : FieldValidation} (now : Z)
    (draws : list Seed.BookingDraw) (st : Store) :
  Forall Seed.booking_draw_in_bounds draws →
  ∃ st' bs,
    Seed.create_bookings now draws st = (st', Ok bs)
    ∧ (∀ k b, (k, b) ∈ bs →
              bookings st' !! k = Some b ∧ date_of now < BookingRow.end_date b)
    ∧ Seed.past_bookings bs now = []
    ∧ (∀ k b, bookings st !! k = Some b → bookings st' !! k = Some b)
    ∧ (no_shared_date st → no_shared_date st').
Proof.
  intros Hdraws.
  destruct (create_bookings_loop_spec now draws [] st Hdraws)
    as (st' & bs & Hrun & Hin & Hkeep & Hinv & _).
  { intros k b Hkb. by apply elem_of_nil in Hkb. }
  exists st', bs. split; [done|]. split; [exact Hin|]. split; [|done].
  unfold Seed.past_bookings.
  destruct (filter _ bs) as [|[k b] l] eqn:Hf; [done|].
  assert ((k, b) ∈ (k, b) :: l) as Hkb by left.
  rewrite <- Hf in Hkb. apply list_elem_of_filter in Hkb as [[_ Hend] Hkb].
  destruct (Hin k b Hkb) as [_ Hfut]. simpl in Hend. lia.
Qed.

Lemma seed_bookings_all_future_witness :
  ∃ st' bs,
    Seed.create_bookings (fv := example_validation) (day 5)
      [ Seed.mkBookingDraw 3 (1, ListingRow.mk 10000) 2 3 confirmed 7;
        Seed.mkBookingDraw 4 (1, ListingRow.mk 10000) 4 2 pending 8 ] st_empty
    = (st', Ok bs)
    ∧ Seed.past_bookings bs (day 5) = [].
Proof.
  destruct (seed_bookings_all_future (fv := example_validation) (day 5)
              [ Seed.mkBookingDraw 3 (1, ListingRow.mk 10000) 2 3 confirmed 7;
                Seed.mkBookingDraw 4 (1, ListingRow.mk 10000) 4 2 pending 8 ] st_empty)
    as (st' & bs & Hrun & _ & Hpast & _).
  - repeat constructor; simpl; lia.
  - exists st', bs. split; [exact Hrun|exact Hpast].
Defined.

(** X17: a round of the loop that creates "additional reviews" never
    writes: the booking it backdates starts before today, [save]
    refuses it with PastDate, the exception is caught, and neither the
    booking nor the review is stored; a round for a pair that already
    has a review does nothing either. *)
Theorem seed_additional_review_never_written {fv : FieldValidation} (now : Z)
    (reviews : list (Z * ReviewRow.t)) (d : Seed.ReviewDraw) (st : Store) :
  Seed.review_draw_in_bounds d →
  Seed.additional_review_round now reviews d st = (st, Ok reviews)
  ∧ ∃ errors,
      Seed.Booking_objects_create (Seed.rd_booking_pk d) (Seed.rd_property d).1
        (Seed.rd_guest d) (date_of now - Seed.rd_days_ago d - Seed.rd_nights d)
        (date_of now - Seed.rd_days_ago d)
        (ListingRow.pricepernight (Seed.rd_property d).2
         * (date_of now - Seed.rd_days_ago d
            - (date_of now - Seed.rd_days_ago d - Seed.rd_nights d)))
        confirmed now st
      = (st, Raise (ValidationError errors))
      ∧ PastDate ∈ errors.
Proof.
  intros [Hd Hn].
  assert (∃ errors,
            Seed.Booking_objects_create (Seed.rd_booking_pk d) (Seed.rd_property d).1
              (Seed.rd_guest d) (date_of now - Seed.rd_days_ago d - Seed.rd_nights d)
              (date_of now - Seed.rd_days_ago d)
              (ListingRow.pricepernight (Seed.rd_property d).2
               * (date_of now - Seed.rd_days_ago d
                  - (date_of now - Seed.rd_days_ago d - Seed.rd_nights d)))
              confirmed now st
            = (st, Raise (ValidationError errors))
            ∧ PastDate ∈ errors) as (errors & Hcreate & Hin).
  { unfold Seed.Booking_objects_create, Booking.save, Booking.full_clean, bind.
    rewrite clean_run. simpl.
    rewrite bool_decide_eq_false_2 by lia. rewrite bool_decide_eq_true_2 by lia.
    eexists. split; [reflexivity|]. apply elem_of_app. right. left. }
  split; [|by exists errors].
  unfold Seed.additional_review_round, try_except. unfold bind at 1. simpl.
  destruct (negb _); [|done].
  unfold bind at 1. rewrite Hcreate. done.
Qed.

Lemma seed_additional_review_never_written_witness :
  Seed.additional_review_round (fv := example_validation) (day 100) []
    (Seed.mkReviewDraw 3 (1, ListingRow.mk 10000) 10 2 5 "Amazing place!" 7 100) st_empty
  = (st_empty, Ok []).
Proof.
  apply (seed_additional_review_never_written (fv := example_validation)).
  split; simpl; lia.
Defined.

(** ** Payments *)

(** What [send_request] does with the record of the payment: it raises
    at [transaction.PENDING] and leaves the table alone, or it returns
    the answer of the gateway, which then is no dictionary or does not
    carry the status "success". *)
Lemma send_request_cases (pk : Z) (transaction : PaymentRow.t) (response : Json)
    (payments : Payments) :
  ChapaAPIService.send_request pk transaction true response payments
  = (payments, Raise AttributeError)
  ∨ (ChapaAPIService.send_request pk transaction true response payments
     = (payments, Ok response)
     ∧ (Python.get response "status" = Raise AttributeError
        ∨ ∃ status, Python.get response "status" = Ok status
                    ∧ Python.eq_str status "success" = false)).
Proof.
  unfold ChapaAPIService.send_request.
  destruct response as [|b|q|s|items|fields]; simpl.
  - auto.
  - destruct b; auto.
  - destruct (negb _); auto.
  - destruct (negb _); auto.
  - destruct (negb _); auto.
  - destruct (decide (fields = ∅)) as [->|Hne].
    + rewrite bool_decide_eq_true_2 by done. simpl. right. split; [done|].
      right. rewrite lookup_empty. simpl. eauto.
    + rewrite bool_decide_eq_false_2 by done. simpl.
      destruct (Python.eq_str _ _) eqn:He; simpl; [by left|].
      right. split; [done|]. right. eauto.
Qed.

(** X18: [PaymentView.post] never answers 201.  When it returns, the
    answer is 400 and the payment is stored as failed; when the gateway
    reports success for a valid request on an existing booking, the
    handler raises AttributeError at [transaction.PENDING] and the
    payment stays stored as created, without a checkout address. *)
Theorem payment_post_never_created (booking_id : Z) (valid : bool) (new_pk : Z)
    (response : Json) (st : Store) (payments : Payments) :
  (∀ payments' r,
     PaymentView.post booking_id valid new_pk response st payments = (payments', Ok r) →
     status_code r = 400
     ∧ payments' !! new_pk = Some (PaymentRow.mk booking_id FAILED (JObject ∅) None))
  ∧ (∀ fields,
       response = JObject fields → fields !! "status" = Some (JString "success") →
       is_Some (bookings st !! booking_id) → valid = true → payments !! new_pk = None →
       PaymentView.post booking_id valid new_pk response st payments
       = (<[new_pk := PaymentRow.mk booking_id CREATED (JObject ∅) None]> payments,
          Raise AttributeError)).
Proof.
  split.
  - intros payments' r. unfold PaymentView.post.
    destruct (bookings st !! booking_id); [|done].
    destruct valid; [|done]. simpl.
    case_bool_decide; [done|].
    destruct (send_request_cases new_pk
                (PaymentRow.mk booking_id CREATED (JObject ∅) None) response
                (Payment.save new_pk (PaymentRow.mk booking_id CREATED (JObject ∅) None)
                   payments))
      as [-> | [-> Hcase]]; [done|].
    destruct Hcase as [-> | (status & -> & ->)]; [done|]. simpl.
    intros [= <- <-]. split; [done|]. unfold Payment.save. apply lookup_insert_eq.
  - intros fields -> Hstatus [b Hb] -> Hpk. unfold PaymentView.post.
    rewrite Hb. simpl. rewrite bool_decide_eq_false_2 by (rewrite Hpk; by intros [? ?]).
    unfold ChapaAPIService.send_request. simpl.
    rewrite bool_decide_eq_false_2.
    + simpl. rewrite Hstatus. simpl. done.
    + intros ->. by rewrite lookup_empty in Hstatus.
Qed.

Lemma payment_post_never_created_witness :
  PaymentView.post 7 true 50 (JObject {[ "status" := JString "success" ]}) st_booked ∅
  = ({[ 50 := PaymentRow.mk 7 CREATED (JObject ∅) None ]}, Raise AttributeError)
  ∧ PaymentView.post 7 true 50 (JObject {[ "status" := JString "failed" ]}) st_booked ∅
    = ({[ 50 := PaymentRow.mk 7 FAILED (JObject ∅) None ]}, Ok (mkResponse 400))
  ∧ status_code (mkResponse 400) = 400.
Proof.
  split; [|split].
  - apply (proj2 (payment_post_never_created 7 true 50
                    (JObject {[ "status" := JString "success" ]}) st_booked ∅)
             {[ "status" := JString "success" ]}).
    + reflexivity.
    + reflexivity.
    + eexists. reflexivity.
    + reflexivity.
    + reflexivity.
  - reflexivity.
  - apply (proj1 (payment_post_never_created 7 true 50
                    (JObject {[ "status" := JString "failed" ]}) st_booked ∅)
             {[ 50 := PaymentRow.mk 7 FAILED (JObject ∅) None ]} (mkResponse 400)).
    reflexivity.
Defined.

Lemma never_completed_handle (st : Store) (payments : Payments) (r : PaymentRequest) :
  never_completed st payments → never_completed st (handle st payments r).
Proof.
  intros Hinv. destruct r as [booking_id valid new_pk response|payment_id response]; simpl.
  - unfold PaymentView.post.
    destruct (bookings st !! booking_id) as [b|] eqn:Hb; [|done].
    destruct valid; [|done]. simpl.
    case_bool_decide as Hpk; [done|].
    assert (∀ status,
              never_completed st
                (Payment.save new_pk (PaymentRow.mk booking_id status (JObject ∅) None)
                   payments)
              ∨ status = PROCESSING ∨ status = COMPLETE) as Hsave.
    { intros status. destruct status; auto; left; intros k p Hk;
        unfold Payment.save, Payments in *;
        (destruct (decide (k = new_pk)) as [->|Hne];
         [rewrite lookup_insert_eq in Hk; injection Hk as <-; simpl; eauto
         |rewrite lookup_insert_ne in Hk by done; by apply (Hinv k)]). }
    destruct (send_request_cases new_pk
                (PaymentRow.mk booking_id CREATED (JObject ∅) None) response
                (Payment.save new_pk (PaymentRow.mk booking_id CREATED (JObject ∅) None)
                   payments))
      as [-> | [-> Hcase]]; simpl.
    + by destruct (Hsave CREATED) as [?|[?|?]].
    + assert (never_completed st
                (Payment.save new_pk (PaymentRow.mk booking_id FAILED (JObject ∅) None)
                   (Payment.save new_pk
                      (PaymentRow.mk booking_id CREATED (JObject ∅) None) payments)))
        as Hfailed.
      { unfold Payment.save, Payments in *. rewrite insert_insert_eq.
        by destruct (Hsave FAILED) as [?|[?|?]]. }
      destruct Hcase as [-> | (status & -> & ->)]; simpl; [|done].
      by destruct (Hsave CREATED) as [?|[?|?]].
  - unfold VerifyPaymentView.get. by destruct (payments !! payment_id).
Qed.

(** X19: no payment is ever completed through the two payment views:
    [VerifyPaymentView.get] raises at [response.data], or answers 404,
    and writes nothing, and after any sequence of the two requests,
    whatever the gateway answers, every payment is stored as created or
    failed, without a checkout address and for an existing booking, if
    that held before. *)
Theorem payments_never_completed (st : Store) (payments : Payments) :
  (∀ payment_id response,
     VerifyPaymentView.get payment_id response payments
     = (payments, Raise (match payments !! payment_id with
                         | Some _ => AttributeError
                         | None => Http404
                         end)))
  ∧ (never_completed st payments →
     ∀ requests, never_completed st (foldl (handle st) payments requests)).
Proof.
  split.
  - intros payment_id response. unfold VerifyPaymentView.get.
    by destruct (payments !! payment_id).
  - intros Hinv requests. revert payments Hinv.
    induction requests as [|r requests IH]; intros payments Hinv; simpl; [done|].
    apply IH. by apply never_completed_handle.
Qed.

Lemma payments_never_completed_witness :
  never_completed st_booked
    (foldl (handle st_booked) ∅
       [ PostPayment 7 true 50 (JObject {[ "status" := JString "success" ]});
         VerifyPayment 50 (JObject {[ "status" := JString "success" ]});
         PostPayment 7 true 51 (JObject {[ "status" := JString "failed" ]}) ]).
Proof.
  apply (proj2 (payments_never_completed st_booked ∅)).
  intros k p Hk. discriminate Hk.
Defined.
